(** * The command data source of the provider: a shallow embedding of
      [internal/provider/data_source.go] and the properties of its [Read].

    Layout of the development:
    - the Go library functions [Read] calls ([strings.Fields], [fmt.Sprintf],
      [exec.LookPath], [exec.Cmd.Run], the framework's diagnostics and state),
      each as an executable function with the behaviour its package documents;
    - the operating system as a record [Host]: what resolves on the search
      path, and what a child process does once it is started;
    - [Read] itself, written in a small monad that threads the response, the
      log of calls to the outside world, early [return], panics and calls
      that never return;
    - the theorems. *)

From Stdlib Require Import String Ascii List Bool Arith NArith Lia DecimalString.
Import ListNotations.
Local Open Scope string_scope.

(* ===================================================================== *)
(** ** Go strings: UTF-8 decoding, [unicode.IsSpace], [strings.Fields]   *)
(* ===================================================================== *)

(** A Go string is a sequence of bytes; [String.string] is the same thing.
    Runes (code points) are numbers in [N]. *)

Module utf8.

Definition RuneError : N := 0xFFFD%N.

(** The [first] table of package [unicode/utf8], for a lead byte >= 0x80:
    the length of the sequence and the range accepted for the second byte;
    [None] is the table's [xx] (invalid lead byte). *)
Definition first (s0 : N) : option (nat * N * N) :=
  (if      s0 <? 0xC2 then None
   else if s0 <? 0xE0 then Some (2%nat, 0x80, 0xBF)
   else if s0 =? 0xE0 then Some (3%nat, 0xA0, 0xBF)
   else if s0 <? 0xED then Some (3%nat, 0x80, 0xBF)
   else if s0 =? 0xED then Some (3%nat, 0x80, 0x9F)
   else if s0 <? 0xF0 then Some (3%nat, 0x80, 0xBF)
   else if s0 =? 0xF0 then Some (4%nat, 0x90, 0xBF)
   else if s0 <? 0xF4 then Some (4%nat, 0x80, 0xBF)
   else if s0 =? 0xF4 then Some (4%nat, 0x80, 0x8F)
   else None)%N.

(** A continuation byte is in [locb, hicb] = [0x80, 0xBF]. *)
Definition cont (b : N) : bool := ((0x80 <=? b) && (b <=? 0xBF))%N.

Definition low (bits : N) (b : N) : N := N.land b (N.ones bits).

(** [utf8.DecodeRuneInString]: the first rune of [s] and its width in
    bytes; an invalid or truncated sequence is [RuneError] of width 1, the
    empty string [RuneError] of width 0. *)
Definition DecodeRuneInString (s : string) : N * nat :=
  match s with
  | EmptyString => (RuneError, 0)
  | String c0 t0 =>
    let s0 := N_of_ascii c0 in
    if (s0 <? 0x80)%N then (s0, 1)
    else
      match first s0 with
      | None => (RuneError, 1)
      | Some (sz, lo, hi) =>
        match t0 with
        | EmptyString => (RuneError, 1)
        | String c1 t1 =>
          let s1 := N_of_ascii c1 in
          if ((s1 <? lo) || (hi <? s1))%N then (RuneError, 1)
          else if (sz <=? 2)%nat
          then (N.lor (N.shiftl (low 5 s0) 6) (low 6 s1), 2)
          else
            match t1 with
            | EmptyString => (RuneError, 1)
            | String c2 t2 =>
              let s2 := N_of_ascii c2 in
              if negb (cont s2) then (RuneError, 1)
              else if (sz <=? 3)%nat
              then (N.lor (N.shiftl (low 4 s0) 12)
                      (N.lor (N.shiftl (low 6 s1) 6) (low 6 s2)), 3)
              else
                match t2 with
                | EmptyString => (RuneError, 1)
                | String c3 _ =>
                  let s3 := N_of_ascii c3 in
                  if negb (cont s3) then (RuneError, 1)
                  else (N.lor (N.shiftl (low 3 s0) 18)
                          (N.lor (N.shiftl (low 6 s1) 12)
                             (N.lor (N.shiftl (low 6 s2) 6) (low 6 s3))), 4)
                end
            end
        end
      end
  end.

(** What [for i, r := range s] enumerates: every rune of [s] with the bytes
    that encode it.  [skip] counts the bytes of the current rune that are
    still to be passed over. *)
Fixpoint runes_from (skip : nat) (s : string) : list (N * string) :=
  match s with
  | EmptyString => []
  | String _ s' =>
    match skip with
    | S k => runes_from k s'
    | O => let '(r, w) := DecodeRuneInString s in
           (r, substring 0 w s) :: runes_from (pred w) s'
    end
  end.

Definition runes (s : string) : list (N * string) := runes_from 0 s.

End utf8.

Module unicode.

(** [unicode.IsSpace]: the Unicode White_Space property. *)
Definition IsSpace (r : N) : bool :=
  (((0x09 <=? r) && (r <=? 0x0D))        (* \t \n \v \f \r *)
   || (r =? 0x20) || (r =? 0x85) || (r =? 0xA0)
   || (r =? 0x1680)
   || ((0x2000 <=? r) && (r <=? 0x200A))
   || (r =? 0x2028) || (r =? 0x2029) || (r =? 0x202F)
   || (r =? 0x205F) || (r =? 0x3000))%N.

End unicode.

Module strings.

(** [strings.FieldsFunc] over the decoded runes: [cur] is the field being
    read, if any. A rune satisfying [f] closes it; any other rune extends
    it with its bytes. *)
Fixpoint fields_loop (f : N -> bool) (cur : option string)
         (rs : list (N * string)) : list string :=
  match rs with
  | [] => match cur with Some w => [w] | None => [] end
  | (r, bytes) :: rs' =>
    if f r
    then match cur with
         | Some w => w :: fields_loop f None rs'
         | None => fields_loop f None rs'
         end
    else fields_loop f
           (Some match cur with Some w => w ++ bytes | None => bytes end) rs'
  end.

Definition FieldsFunc (s : string) (f : N -> bool) : list string :=
  fields_loop f None (utf8.runes s).

(** [strings.Fields]: the maximal runs of non-space runes of [s]; the empty
    list when [s] has nothing but white space. *)
Definition Fields (s : string) : list string := FieldsFunc s unicode.IsSpace.

(** A string all of whose runes are white space (the empty string too). *)
Definition all_space (s : string) : bool :=
  forallb (fun rb => unicode.IsSpace (fst rb)) (utf8.runes s).

End strings.

(* ===================================================================== *)
(** ** The plugin framework: attribute values, diagnostics, state        *)
(* ===================================================================== *)

Module types.

(** [types.String]: a string attribute is null, unknown, or a known value. *)
Inductive String_ := StringNull | StringUnknown | StringValue (s : string).

(** [(types.String).ValueString]: the known value, or the empty string when
    the attribute is null or unknown. *)
Definition ValueString (v : String_) : string :=
  match v with StringValue s => s | _ => "" end.

Definition IsKnownValue (v : String_) : bool :=
  match v with StringValue _ => true | _ => false end.

End types.

(** [type testDataSourceModel struct] (the last declaration of the file). *)
Record testDataSourceModel := {
  Command    : types.String_;
  WorkingDir : types.String_;
  Output     : types.String_;
  Error      : types.String_;
  ID         : types.String_
}.

Module path.

(** An attribute path; [path.Root name] is the one-step path to a top-level
    attribute. *)
Definition Path := list string.
Definition Root (name : string) : Path := [name].

End path.

Module diag.

Inductive Severity := SeverityError | SeverityWarning.

Record Diagnostic := {
  Sev       : Severity;
  Summary   : string;
  Detail    : string;
  Attribute : option path.Path
}.

Definition Diagnostics := list Diagnostic.

Definition NewAttributeErrorDiagnostic (p : path.Path) (summary detail : string) : Diagnostic :=
  {| Sev := SeverityError; Summary := summary; Detail := detail; Attribute := Some p |}.

Definition is_error (d : Diagnostic) : bool :=
  match Sev d with SeverityError => true | SeverityWarning => false end.

(** [Diagnostics.HasError] *)
Definition HasError (ds : Diagnostics) : bool := existsb is_error ds.

Definition sev_eqb (a b : Severity) : bool :=
  match a, b with
  | SeverityError, SeverityError | SeverityWarning, SeverityWarning => true
  | _, _ => false
  end.

Definition path_eqb (a b : option path.Path) : bool :=
  match a, b with
  | None, None => true
  | Some p, Some q => if list_eq_dec string_dec p q then true else false
  | _, _ => false
  end.

(** [Diagnostic.Equal] *)
Definition Equal (a b : Diagnostic) : bool :=
  sev_eqb (Sev a) (Sev b) && (Summary a =? Summary b) && (Detail a =? Detail b)
  && path_eqb (Attribute a) (Attribute b).

(** [Diagnostics.Contains] *)
Definition Contains (ds : Diagnostics) (d : Diagnostic) : bool := existsb (Equal d) ds.

(** [Diagnostics.Append]: adds the diagnostics not already present. *)
Fixpoint Append (ds : Diagnostics) (new : list Diagnostic) : Diagnostics :=
  match new with
  | [] => ds
  | d :: new' => Append (if Contains ds d then ds else (ds ++ [d])%list) new'
  end.

End diag.

(** [tfsdk.Config], as [Read] observes it: through [Get] alone, which decodes
    the configuration into the model and reports the diagnostics of the
    decoding. *)
Record Config_ := {
  Get_value : testDataSourceModel;
  Get_diags : diag.Diagnostics
}.

Definition Config_Get (c : Config_) : diag.Diagnostics * testDataSourceModel :=
  (Get_diags c, Get_value c).

(** [datasource.ReadRequest] and [datasource.ReadResponse]. The state of a
    response is null ([None]) until [State.Set] writes a value. *)
Record ReadRequest := { Config : Config_ }.

Record ReadResponse := {
  State       : option testDataSourceModel;
  Diagnostics : diag.Diagnostics
}.

(** The response the framework hands to [Read]. *)
Definition newReadResponse : ReadResponse := {| State := None; Diagnostics := [] |}.

(* ===================================================================== *)
(** ** Contexts, processes and package [os/exec]                          *)
(* ===================================================================== *)

Definition nl : string := String (ascii_of_nat 10) "".
Definition dq : string := String (ascii_of_nat 34) "".

Module context.

Inductive cause := Canceled | DeadlineExceeded.

(** A context, by the only thing a call can observe of it: whether and when
    its [Done] channel closes. Instants are counted from the call of
    [cmd.Run]; instant 0 means the context is done already by then. *)
Record Context := { done : option (nat * cause) }.

Definition Background : Context := {| done := None |}.

(** [ctx.Err()] at instant [t]: [nil] until [Done] is closed. *)
Definition Err_at (c : Context) (t : nat) : option cause :=
  match done c with
  | Some (d, k) => if (d <=? t)%nat then Some k else None
  | None => None
  end.

(** [Done] is open when [cmd.Run] is called and does not close before the
    instant [t]. *)
Definition quietUntil (c : Context) (t : nat) : bool :=
  match done c with
  | Some (d, _) => (0 <? d)%nat && (t <=? d)%nat
  | None => true
  end.

(** The instant at which [Done] closes, when that is before instant [t]. *)
Definition firesBefore (c : Context) (t : nat) : option nat :=
  match done c with
  | Some (d, _) => if (d <? t)%nat then Some d else None
  | None => None
  end.

Definition cause_text (c : cause) : string :=
  match c with
  | Canceled => "context canceled"
  | DeadlineExceeded => "context deadline exceeded"
  end.

End context.

Module os.

(** [os.ProcessState]: how a process ended. *)
Inductive ProcessState := Exited (status : nat) | Signaled (signal : string).

(** [ProcessState.Success] *)
Definition Success (st : ProcessState) : bool :=
  match st with Exited 0 => true | _ => false end.

(** [ProcessState.String] *)
Definition ProcessState_String (st : ProcessState) : string :=
  match st with
  | Exited n => "exit status " ++ NilEmpty.string_of_uint (Nat.to_uint n)
  | Signaled sig => "signal: " ++ sig
  end.

(** A child process: when and how it ends when it is left to itself, and
    what the two pipes bound to its standard output and standard error
    deliver before they reach end of file, which they do once the child and
    every descendant that inherited them have closed them. [output] is for a
    child left to run to its end, [outputKilledAt t] for a child killed at
    the instant [t]; each is the pair of the two texts, or [None] when a pipe
    never reaches end of file. The texts include what a descendant writes
    after the child itself has ended. *)
Record Process := {
  exitAt         : nat;
  exitWith       : ProcessState;
  output         : option (string * string);
  outputKilledAt : nat -> option (string * string)
}.

End os.

(** Go's [error] values that can reach [Read]. *)
Inductive error :=
| ctxError (c : context.cause)      (* ctx.Err() *)
| startError (msg : string)         (* os.StartProcess failed: fork/exec, chdir *)
| ExitError (st : os.ProcessState)  (* *exec.ExitError *)
| lookPathError (name : string).    (* *exec.Error wrapping exec.ErrNotFound *)

(** [err.Error()] *)
Definition error_Error (e : error) : string :=
  match e with
  | ctxError c => context.cause_text c
  | startError msg => msg
  | ExitError st => os.ProcessState_String st
  | lookPathError name =>
    "exec: " ++ dq ++ name ++ dq ++ ": executable file not found in $PATH"
  end.

Definition isSome {A} (o : option A) : bool :=
  match o with Some _ => true | None => false end.

Module exec.

(** [exec.Cmd]: the fields [Read] sets. [Stdout] and [Stderr] are bound to
    two buffers whose contents [Run] returns here. *)
Record Cmd := {
  ctx  : context.Context;
  Path : string;
  Args : list string;
  Dir  : string
}.

(** [exec.CommandContext]: [name] has a path separator, so no lookup is
    done for it; [Args] holds the name followed by the arguments. *)
Definition CommandContext (c : context.Context) (name : string) (arg : list string) : Cmd :=
  {| ctx := c; Path := name; Args := name :: arg; Dir := "" |}.

Definition set_Dir (cmd : Cmd) (d : string) : Cmd :=
  {| ctx := ctx cmd; Path := Path cmd; Args := Args cmd; Dir := d |}.

(** What the operating system does with a request to start a process. *)
Inductive Child := StartFails (msg : string) | Started (p : os.Process).

End exec.

(** The operating system around one call of [Read]: which file names resolve
    on the executable search path, and what becomes of a process started for
    a given command line in a given directory. *)
Record Host := {
  lookPath     : string -> option string;
  startProcess : exec.Cmd -> exec.Child
}.

Module Run.

(** [exec.Cmd.Run] = [Start] then [Wait], with [Stdout] and [Stderr] bound
    to two buffers. Each buffer is filled from a pipe by a goroutine that
    copies until end of file, and [Wait] returns only when the process has
    ended and both copies are done. The result is the error and the contents
    of the two buffers, or [None] when [Run] never returns.
    - a context already done: [Start] returns [ctx.Err()], nothing is started;
    - the start fails: its error;
    - the context is done before the process exits: the process is killed,
      and [Wait] reports its state, [signal: killed];
    - otherwise the process runs to its end; [nil] if it succeeded. *)
Definition killed : os.ProcessState := os.Signaled "killed".

Definition wait (st : os.ProcessState) : option error :=
  if os.Success st then None else Some (ExitError st).

(** [Wait] for a process that ended in the state [st], given what the pipes
    deliver. *)
Definition await (st : os.ProcessState) (pipes : option (string * string))
  : option (option error * string * string) :=
  match pipes with
  | Some (out, err) => Some (wait st, out, err)
  | None => None
  end.

Definition run (h : Host) (cmd : exec.Cmd) : option (option error * string * string) :=
  match context.Err_at (exec.ctx cmd) 0 with
  | Some c => Some (Some (ctxError c), "", "")
  | None =>
    match startProcess h cmd with
    | exec.StartFails msg => Some (Some (startError msg), "", "")
    | exec.Started p =>
      match context.firesBefore (exec.ctx cmd) (os.exitAt p) with
      | Some t => await killed (os.outputKilledAt p t)
      | None => await (os.exitWith p) (os.output p)
      end
    end
  end.

End Run.

(* ===================================================================== *)
(** ** The monad of [Read]                                                *)
(* ===================================================================== *)

(** The calls [Read] makes to the outside world, in the order it makes them.
    A child process can only come into existence inside [cmd.Run], and a
    search-path resolution only inside [exec.LookPath]. *)
Inductive Event :=
| EvLookPath (file : string)
| EvRun (cmd : exec.Cmd)
| EvTrace (msg : string) (fields : list (string * string)).

(** What a statement of [Read] can change: the response it was handed (a
    pointer in Go) and the log of calls. *)
Record World := { resp : ReadResponse; log : list Event }.

(** How a statement ends: control goes on to the next statement, the function
    returns, the goroutine panics, or the statement never ends. *)
Inductive Flow (A : Type) :=
| Next (a : A)
| Returned
| Panicked (msg : string)
| Blocked.
Arguments Next {A} a.
Arguments Returned {A}.
Arguments Panicked {A} msg.
Arguments Blocked {A}.

Definition M (A : Type) : Type := World -> Flow A * World.

Definition ret {A} (a : A) : M A := fun w => (Next a, w).

Definition bind {A B} (c : M A) (k : A -> M B) : M B :=
  fun w =>
    match c w with
    | (Next a, w') => k a w'
    | (Returned, w') => (Returned, w')
    | (Panicked msg, w') => (Panicked msg, w')
    | (Blocked, w') => (Blocked, w')
    end.

Declare Scope go_scope.
Delimit Scope go_scope with go.
Notation "x <- c ;; k" := (bind c (fun x => k))
  (at level 61, c at next level, right associativity) : go_scope.
Notation "' pat <- c ;; k" := (bind c (fun x => match x with pat => k end))
  (at level 61, pat pattern, c at next level, right associativity) : go_scope.
Notation "c ;; k" := (bind c (fun _ => k))
  (at level 61, right associativity) : go_scope.

(** [return] *)
Definition return_ {A} : M A := fun w => (Returned, w).

(** [panic(msg)] *)
Definition panic {A} (msg : string) : M A := fun w => (Panicked msg, w).

(** A call that never returns. *)
Definition block {A} : M A := fun w => (Blocked, w).

(** [if b { body }] *)
Definition when (b : bool) (body : M unit) : M unit := if b then body else ret tt.

Definition emit (e : Event) : M unit :=
  fun w => (Next tt, {| resp := resp w; log := (log w ++ [e])%list |}).

(** [resp.Diagnostics.Append(ds...)] *)
Definition Diagnostics_Append (ds : diag.Diagnostics) : M unit :=
  fun w => (Next tt,
            {| resp := {| State := State (resp w);
                          Diagnostics := diag.Append (Diagnostics (resp w)) ds |};
               log := log w |}).

(** [resp.Diagnostics.HasError()] *)
Definition Diagnostics_HasError : M bool :=
  fun w => (Next (diag.HasError (Diagnostics (resp w))), w).

(** [resp.Diagnostics.AddAttributeError(path, summary, detail)] *)
Definition Diagnostics_AddAttributeError (p : path.Path) (summary detail : string) : M unit :=
  Diagnostics_Append [diag.NewAttributeErrorDiagnostic p summary detail].

(** [resp.State.Set(ctx, &m)]: the model has the shape of the schema, so the
    conversion reports nothing. *)
Definition State_Set (m : testDataSourceModel) : M diag.Diagnostics :=
  fun w => (Next [],
            {| resp := {| State := Some m; Diagnostics := Diagnostics (resp w) |};
               log := log w |}).

(** [s[0]] on a slice: a run-time panic when the slice is empty. *)
Definition index0 (s : list string) : M string :=
  match s with
  | x :: _ => ret x
  | [] => panic "runtime error: index out of range [0] with length 0"
  end.

(** [exec.LookPath(file)] on the host: the resolved path and the error. *)
Definition exec_LookPath (h : Host) (file : string) : M (string * option error) :=
  (emit (EvLookPath file) ;;
   ret match lookPath h file with
       | Some p => (p, None)
       | None => ("", Some (lookPathError file))
       end)%go.

(** [cmd.Run()] on the host, with the contents of the two buffers. *)
Definition Cmd_Run (h : Host) (cmd : exec.Cmd) : M (option error * string * string) :=
  (emit (EvRun cmd) ;;
   match Run.run h cmd with
   | Some r => ret r
   | None => block
   end)%go.

(** [tflog.Trace(ctx, msg, fields)] *)
Definition tflog_Trace (msg : string) (fields : list (string * string)) : M unit :=
  emit (EvTrace msg fields).

(* ===================================================================== *)
(** ** [func (n *testDataSource) Read(ctx, req, resp)]                    *)
(* ===================================================================== *)

Definition set_result (config : testDataSourceModel) (outputStr errorStr : string)
  : testDataSourceModel :=
  {| Command := Command config;
     WorkingDir := WorkingDir config;
     Output := types.StringValue outputStr;
     Error := types.StringValue errorStr;
     ID := types.StringValue "-" |}.

(** [fmt.Sprintf("The command '%s' was not found. Ensure it's installed and
    accessible.", command)] *)
Definition Sprintf_not_found (command : string) : string :=
  "The command '" ++ command ++ "' was not found. Ensure it's installed and accessible.".

(** [fmt.Sprintf("Command execution failed.\n\nCommand: %s\nError: %s\nStderr: %s",
    command, err, errorStr)]; the verb [%s] prints an error by its [Error()]. *)
Definition Sprintf_failed (command : string) (err : error) (errorStr : string) : string :=
  "Command execution failed." ++ nl ++ nl
  ++ "Command: " ++ command ++ nl
  ++ "Error: " ++ error_Error err ++ nl
  ++ "Stderr: " ++ errorStr.

Definition Read (h : Host) (ctx : context.Context) (req : ReadRequest) : M unit :=
  (let '(diags, config) := Config_Get (Config req) in
   Diagnostics_Append diags ;;
   failed <- Diagnostics_HasError ;;
   when failed return_ ;;

   let command := types.ValueString (Command config) in
   let workingDir := types.ValueString (WorkingDir config) in

   when (command =? "")
     (Diagnostics_AddAttributeError (path.Root "command")
        "Missing Command"
        "The command cannot be empty. Please specify a valid shell command." ;;
      return_) ;;

   file <- index0 (strings.Fields command) ;;
   '(_, err) <- exec_LookPath h file ;;
   when (isSome err)
     (Diagnostics_AddAttributeError (path.Root "command")
        "Command Not Found"
        (Sprintf_not_found command) ;;
      return_) ;;

   let cmd := exec.CommandContext ctx "/bin/sh" ["-c"; command] in
   let cmd := if negb (workingDir =? "") then exec.set_Dir cmd workingDir else cmd in

   tflog_Trace "Executing command" [("command", command)] ;;

   '(err, outputStr, errorStr) <- Cmd_Run h cmd ;;

   tflog_Trace "Executed command"
     [("command", command); ("output", outputStr); ("error", errorStr)] ;;

   match err with
   | Some e =>
     Diagnostics_AddAttributeError (path.Root "command")
       "Command Execution Failed"
       (Sprintf_failed command e errorStr) ;;
     return_
   | None => ret tt
   end ;;

   let config := set_result config outputStr errorStr in
   diags <- State_Set config ;;
   Diagnostics_Append diags)%go.

(** One call of [Read] by the framework: the response and the calls made
    when the call ends or comes to a halt, the panic if there was one, and
    whether the call is blocked for ever and so never returns. *)
Record Outcome := {
  response : ReadResponse;
  calls    : list Event;
  panicked : option string;
  blocked  : bool
}.

Definition call (body : M unit) (r : ReadResponse) : Outcome :=
  let '(f, w) := body {| resp := r; log := [] |} in
  {| response := resp w;
     calls := log w;
     panicked := match f with Panicked msg => Some msg | _ => None end;
     blocked := match f with Blocked => true | _ => false end |}.

Definition call_Read (h : Host) (ctx : context.Context) (req : ReadRequest) : Outcome :=
  call (Read h ctx req) newReadResponse.

(* ===================================================================== *)
(** ** Reading a request and an outcome                                   *)
(* ===================================================================== *)

Definition config_of (req : ReadRequest) : testDataSourceModel := Get_value (Config req).

Definition command_of (req : ReadRequest) : string :=
  types.ValueString (Command (config_of req)).

Definition workingDir_of (req : ReadRequest) : string :=
  types.ValueString (WorkingDir (config_of req)).

(** The diagnostics of the decoding, as they stand in a fresh response. *)
Definition decoded_diags (req : ReadRequest) : diag.Diagnostics :=
  diag.Append [] (Get_diags (Config req)).

(** The decoding reported no error. *)
Definition decodes (req : ReadRequest) : Prop :=
  diag.HasError (Get_diags (Config req)) = false.

(** The shell invocation for [command] in directory [dir] ([""]: the
    directory of the calling process). *)
Definition sh_c (ctx : context.Context) (command dir : string) : exec.Cmd :=
  {| exec.ctx := ctx; exec.Path := "/bin/sh";
     exec.Args := ["/bin/sh"; "-c"; command]; exec.Dir := dir |}.

(** The commands handed to [cmd.Run] and the names handed to
    [exec.LookPath] during a call. *)
Definition spawns (o : Outcome) : list exec.Cmd :=
  flat_map (fun e => match e with EvRun c => [c] | _ => [] end) (calls o).

Definition lookups (o : Outcome) : list string :=
  flat_map (fun e => match e with EvLookPath f => [f] | _ => [] end) (calls o).

(** The three diagnostics of [Read]. *)
Definition MissingCommand : diag.Diagnostic :=
  diag.NewAttributeErrorDiagnostic (path.Root "command") "Missing Command"
    "The command cannot be empty. Please specify a valid shell command.".

Definition CommandNotFound (command : string) : diag.Diagnostic :=
  diag.NewAttributeErrorDiagnostic (path.Root "command") "Command Not Found"
    (Sprintf_not_found command).

Definition CommandExecutionFailed (command : string) (e : error) (errorStr : string)
  : diag.Diagnostic :=
  diag.NewAttributeErrorDiagnostic (path.Root "command") "Command Execution Failed"
    (Sprintf_failed command e errorStr).

(** The error taxonomy of the specification, and the category a diagnostic
    of [Read] stands for: the summary is what tells the diagnostics apart. *)
Inductive ErrorCategory :=
| EmptyCommandError
| ExecutableNotFoundError
| ExecutionFailedError
| CancelledError.

Definition category (d : diag.Diagnostic) : option ErrorCategory :=
  if diag.Summary d =? "Missing Command" then Some EmptyCommandError
  else if diag.Summary d =? "Command Not Found" then Some ExecutableNotFoundError
  else if diag.Summary d =? "Command Execution Failed" then Some ExecutionFailedError
  else None.

(** The categories of the errors a call reported. *)
Definition categories (ds : diag.Diagnostics) : list ErrorCategory :=
  flat_map (fun d => if diag.is_error d
                     then match category d with Some c => [c] | None => [] end
                     else [])
           ds.

Definition failures (o : Outcome) : list ErrorCategory :=
  categories (Diagnostics (response o)).

(** A state with all three computed attributes set. *)
Definition populated (m : testDataSourceModel) : bool :=
  types.IsKnownValue (Output m) && types.IsKnownValue (Error m)
  && types.IsKnownValue (ID m).

(** The call failed: it reported an error, it panicked, or it never
    returns. *)
Definition failed (o : Outcome) : bool :=
  diag.HasError (Diagnostics (response o)) || isSome (panicked o) || blocked o.

(** The result of the specification's data model: the three computed
    values, present when the state was written. *)
Record ExecutionResult := {
  standardOutput : types.String_;
  standardError  : types.String_;
  identifier     : types.String_
}.

Definition result_of (o : Outcome) : option ExecutionResult :=
  option_map (fun m => {| standardOutput := Output m;
                          standardError := Error m;
                          identifier := ID m |})
             (State (response o)).

(** What a call shows apart from the attributes its state repeats from the
    configuration: the result, the diagnostics, the calls to the outside
    world, the panic, and whether it returns at all. *)
Definition observation (o : Outcome)
  : option ExecutionResult * diag.Diagnostics * list Event * option string * bool :=
  (result_of o, Diagnostics (response o), calls o, panicked o, blocked o).

Definition with_WorkingDir (m : testDataSourceModel) (wd : types.String_)
  : testDataSourceModel :=
  {| Command := Command m; WorkingDir := wd;
     Output := Output m; Error := Error m; ID := ID m |}.

(** [sub] occurs in [s]. *)
Definition contains (s sub : string) : Prop := exists a b, s = a ++ sub ++ b.

(** The outcome of a call that ended in a [return] with the response [r]. *)
Definition returned (r : ReadResponse) (evs : list Event) : Outcome :=
  {| response := r; calls := evs; panicked := None; blocked := false |}.

(** The calls of a run that is blocked in [cmd.Run]. *)
Definition blocked_calls (ctx : context.Context) (file command dir : string)
  : list Event :=
  [EvLookPath file;
   EvTrace "Executing command" [("command", command)];
   EvRun (sh_c ctx command dir)].

(** The outcome of a call that [cmd.Run] never returns from. *)
Definition blocked_in_Run (r : ReadResponse) (evs : list Event) : Outcome :=
  {| response := r; calls := evs; panicked := None; blocked := true |}.

(** The calls of a run that [cmd.Run] returns from. *)
Definition run_calls (ctx : context.Context) (file command dir out err : string)
  : list Event :=
  [EvLookPath file;
   EvTrace "Executing command" [("command", command)];
   EvRun (sh_c ctx command dir);
   EvTrace "Executed command" [("command", command); ("output", out); ("error", err)]].

(* ===================================================================== *)
(** ** A concrete host, for running [Read]                                *)
(* ===================================================================== *)

Module Demo.

(** A process that ends at [t] in the state [st], having written [out] and
    [err], with no descendant left to hold its pipes; killed before [t], it
    has written nothing. *)
Definition proc (t : nat) (st : os.ProcessState) (out err : string) : os.Process :=
  {| os.exitAt := t; os.exitWith := st;
     os.output := Some (out, err);
     os.outputKilledAt := fun _ => Some ("", "") |}.

(** A shell that ends at [t] in the state [st] and leaves in the background
    a descendant that holds its pipes open and never ends. *)
Definition leaves_behind (t : nat) (st : os.ProcessState) : os.Process :=
  {| os.exitAt := t; os.exitWith := st;
     os.output := None;
     os.outputKilledAt := fun _ => None |}.

(** A shell that ends at [t] in the state [st] having written [out] and
    [err], and leaves in the background a descendant that writes [late_out]
    and [late_err] and then ends. *)
Definition writes_late (t : nat) (st : os.ProcessState)
           (out err late_out late_err : string) : os.Process :=
  {| os.exitAt := t; os.exitWith := st;
     os.output := Some (out ++ late_out, err ++ late_err);
     os.outputKilledAt := fun _ => Some ("", "") |}.

(** What [/bin/sh -c script] does on this host. *)
Definition sh (script : string) : os.Process :=
  if script =? "echo hello" then proc 1 (os.Exited 0) ("hello" ++ nl) ""
  else if script =? "echo oops >&2" then proc 1 (os.Exited 0) "" ("oops" ++ nl)
  else if script =? "echo partial; false" then proc 1 (os.Exited 1) ("partial" ++ nl) ""
  else if script =? "ls /nope" then
    proc 1 (os.Exited 2) "" ("ls: cannot access '/nope': No such file or directory" ++ nl)
  else if script =? "false" then proc 1 (os.Exited 1) "" ""
  else if script =? "sleep 10" then proc 10 (os.Exited 0) "" ""
  else if script =? "pwd" then proc 1 (os.Exited 0) ("/home/user" ++ nl) ""
  else if script =? "echo started; (sleep 1; echo late) &" then
    writes_late 1 (os.Exited 0) ("started" ++ nl) "" ("late" ++ nl) ""
  else if script =? "tail -f /dev/null &" then leaves_behind 1 (os.Exited 0)
  else if script =? "tail -f /dev/null & exit 3" then leaves_behind 1 (os.Exited 3)
  else if script =? "echo oops >&2; tail -f /dev/null &" then
    leaves_behind 1 (os.Exited 0)
  else if script =? "tail -f /dev/null & sleep 10" then leaves_behind 10 (os.Exited 0)
  else proc 1 (os.Exited 127) "" ("sh: 1: " ++ script ++ ": not found" ++ nl).

Definition host : Host :=
  {| lookPath := fun file =>
       if existsb (String.eqb file) ["echo"; "false"; "sleep"; "ls"; "pwd"; "tail"]
       then Some ("/usr/bin/" ++ file) else None;
     startProcess := fun cmd =>
       if exec.Dir cmd =? "/no/such/dir"
       then exec.StartFails "chdir /no/such/dir: no such file or directory"
       else match exec.Args cmd with
            | [_; _; script] => exec.Started (sh script)
            | _ => exec.StartFails "fork/exec: invalid argument"
            end |}.

Definition model (command workingDir : types.String_) : testDataSourceModel :=
  {| Command := command; WorkingDir := workingDir;
     Output := types.StringNull; Error := types.StringNull; ID := types.StringNull |}.

Definition request (command workingDir : types.String_) : ReadRequest :=
  {| Config := {| Get_value := model command workingDir; Get_diags := [] |} |}.

Definition cmd (command : string) : ReadRequest :=
  request (types.StringValue command) types.StringNull.

Definition cancelAt (t : nat) : context.Context :=
  {| context.done := Some (t, context.Canceled) |}.

End Demo.

(* ===================================================================== *)
(** ** [Metadata], [Schema] and the attributes of the model               *)
(* ===================================================================== *)

Module schema.

Module StringAttribute.

(** [schema.StringAttribute]: the fields the data source sets; a field left
    out of the literal is [false]. *)
Record t := {
  Description : string;
  Required    : bool;
  Optional    : bool;
  Computed    : bool
}.

End StringAttribute.

(** [schema.Schema]; [Attributes] is a Go map, written here as the list of
    its entries in the order of the literal. *)
Record Schema := {
  Description : string;
  Attributes  : list (string * StringAttribute.t)
}.

End schema.

Module datasource.

Record MetadataRequest := { ProviderTypeName : string }.
Record MetadataResponse := { TypeName : string }.
Record SchemaResponse := { Schema : schema.Schema }.

End datasource.

(** [func (n *testDataSource) Metadata(ctx, req, resp)] *)
Definition Metadata (req : datasource.MetadataRequest)
           (resp : datasource.MetadataResponse) : datasource.MetadataResponse :=
  {| datasource.TypeName := datasource.ProviderTypeName req |}.

(** [func (n *testDataSource) Schema(ctx, req, resp)] *)
Definition Schema (resp : datasource.SchemaResponse) : datasource.SchemaResponse :=
  {| datasource.Schema :=
       {| schema.Description :=
            "Executes a local command, just like `local-exec`, and returns its output.";
          schema.Attributes :=
            [ ("command",
               {| schema.StringAttribute.Description := "The command to execute.";
                  schema.StringAttribute.Required := true;
                  schema.StringAttribute.Optional := false;
                  schema.StringAttribute.Computed := false |});
              ("working_dir",
               {| schema.StringAttribute.Description :=
                    "Working directory of the program. Defaults to the current directory.";
                  schema.StringAttribute.Required := false;
                  schema.StringAttribute.Optional := true;
                  schema.StringAttribute.Computed := false |});
              ("output",
               {| schema.StringAttribute.Description :=
                    "The standard output of the executed command.";
                  schema.StringAttribute.Required := false;
                  schema.StringAttribute.Optional := false;
                  schema.StringAttribute.Computed := true |});
              ("error",
               {| schema.StringAttribute.Description :=
                    "The standard error output of the executed command.";
                  schema.StringAttribute.Required := false;
                  schema.StringAttribute.Optional := false;
                  schema.StringAttribute.Computed := true |});
              ("id",
               {| schema.StringAttribute.Description :=
                    "The ID of the data source, always set to `-`.";
                  schema.StringAttribute.Required := false;
                  schema.StringAttribute.Optional := false;
                  schema.StringAttribute.Computed := true |}) ] |} |}.

(** The schema the data source declares, whatever response it is given. *)
Definition declared_attributes : list (string * schema.StringAttribute.t) :=
  schema.Attributes
    (datasource.Schema
       (Schema {| datasource.Schema :=
                    {| schema.Description := ""; schema.Attributes := [] |} |})).

(** The [tfsdk] tags of [testDataSourceModel]: the field that the attribute
    [name] is decoded into and written from. *)
Definition attribute (m : testDataSourceModel) (name : string) : option types.String_ :=
  if name =? "command" then Some (Command m)
  else if name =? "working_dir" then Some (WorkingDir m)
  else if name =? "output" then Some (Output m)
  else if name =? "error" then Some (Error m)
  else if name =? "id" then Some (ID m)
  else None.

(* ===================================================================== *)
(** ** Requests that differ in one attribute, hosts that differ in paths  *)
(* ===================================================================== *)

Definition with_Command (m : testDataSourceModel) (c : types.String_)
  : testDataSourceModel :=
  {| Command := c; WorkingDir := WorkingDir m;
     Output := Output m; Error := Error m; ID := ID m |}.

(** The request that decodes to [m] with the diagnostics [ds]. *)
Definition request_of (m : testDataSourceModel) (ds : diag.Diagnostics) : ReadRequest :=
  {| Config := {| Get_value := m; Get_diags := ds |} |}.

(** The white space of the ASCII range: tab, line feed, vertical tab, form
    feed, carriage return, space. *)
Definition ascii_space (c : ascii) : bool :=
  let n := N_of_ascii c in
  (((9 <=? n) && (n <=? 13)) || (n =? 32))%N.

Fixpoint all_ascii_space (s : string) : bool :=
  match s with
  | EmptyString => true
  | String c s' => ascii_space c && all_ascii_space s'
  end.

(** Two hosts that resolve the same names (to whatever paths) and start the
    same processes. *)
Definition same_resolution (h1 h2 : Host) : Prop :=
  forall file, isSome (lookPath h1 file) = isSome (lookPath h2 file).

Definition same_processes (h1 h2 : Host) : Prop :=
  forall cmd, startProcess h1 cmd = startProcess h2 cmd.

(** The host of [Demo] with its executables under another directory. *)
Definition host_in_bin : Host :=
  {| lookPath := fun file =>
       match lookPath Demo.host file with
       | Some _ => Some ("/bin/" ++ file)
       | None => None
       end;
     startProcess := startProcess Demo.host |}.

(** The diagnostics [Read] itself can add. *)
Definition is_Read_diagnostic (d : diag.Diagnostic) : Prop :=
  diag.Sev d = diag.SeverityError
  /\ diag.Attribute d = Some (path.Root "command")
  /\ (diag.Summary d = "Missing Command"
      \/ diag.Summary d = "Command Not Found"
      \/ diag.Summary d = "Command Execution Failed").

(* ===================================================================== *)
(** ** [strings.Fields]                                                   *)
(* ===================================================================== *)

Example Fields_echo : strings.Fields "  echo   hello world " = ["echo"; "hello"; "world"].
Proof. reflexivity. Qed.

Example Fields_blank : strings.Fields (String (ascii_of_nat 9) " ") = [].
Proof. reflexivity. Qed.

(* U+00A0 (C2 A0) and U+3000 (E3 80 80) are spaces, U+00E9 (C3 A9) is not. *)
Example Fields_unicode :
  strings.Fields
    (String (ascii_of_nat 195) (String (ascii_of_nat 169)
      (String (ascii_of_nat 194) (String (ascii_of_nat 160)
        (String (ascii_of_nat 227) (String (ascii_of_nat 128) (String (ascii_of_nat 128) "x")))))))
  = [String (ascii_of_nat 195) (String (ascii_of_nat 169) ""); "x"].
Proof. vm_compute. reflexivity. Qed.

(** The defining property of [fields_loop] used below: no field at all is
    found exactly when every rune satisfies [f]. *)
Lemma fields_loop_open f w rs : strings.fields_loop f (Some w) rs <> [].
Proof.
  revert w; induction rs as [|[r b] rs IH]; intros w; simpl.
  - discriminate.
  - destruct (f r); [discriminate | apply IH].
Qed.

Lemma fields_loop_nil f rs :
  strings.fields_loop f None rs = [] <-> forallb (fun rb => f (fst rb)) rs = true.
Proof.
  induction rs as [|[r b] rs IH]; simpl.
  - tauto.
  - destruct (f r); simpl; [exact IH|].
    split; [intros H; now apply fields_loop_open in H | discriminate].
Qed.

Lemma Fields_nil_iff s : strings.Fields s = [] <-> strings.all_space s = true.
Proof. apply fields_loop_nil. Qed.

(* ===================================================================== *)
(** ** Diagnostics                                                        *)
(* ===================================================================== *)

Lemma Equal_is_error a b : diag.Equal a b = true -> diag.is_error a = diag.is_error b.
Proof.
  unfold diag.Equal, diag.is_error; intros H.
  repeat (apply andb_true_iff in H; destruct H as [H ?]).
  destruct (diag.Sev a), (diag.Sev b); simpl in H; congruence.
Qed.

Lemma Contains_error ds d :
  diag.Contains ds d = true -> diag.is_error d = true -> diag.HasError ds = true.
Proof.
  unfold diag.Contains, diag.HasError; intros H E.
  apply existsb_exists in H as [d' [Hin Heq]].
  apply existsb_exists; exists d'; split; [assumption|].
  now rewrite <- (Equal_is_error _ _ Heq).
Qed.

Lemma HasError_app ds ds' :
  diag.HasError (ds ++ ds')%list = diag.HasError ds || diag.HasError ds'.
Proof. apply existsb_app. Qed.

Lemma HasError_Append ds new :
  diag.HasError (diag.Append ds new) = diag.HasError ds || diag.HasError new.
Proof.
  revert ds; induction new as [|d new IH]; intros ds; simpl.
  - now rewrite orb_false_r.
  - rewrite IH. destruct (diag.Contains ds d) eqn:C.
    + destruct (diag.is_error d) eqn:E; simpl; [|reflexivity].
      rewrite (Contains_error _ _ C E); reflexivity.
    + rewrite HasError_app; simpl. rewrite orb_false_r, orb_assoc; reflexivity.
Qed.

(** An error appended to diagnostics without errors is new, and goes last. *)
Lemma Append_error ds d :
  diag.HasError ds = false -> diag.is_error d = true ->
  diag.Append ds [d] = (ds ++ [d])%list.
Proof.
  intros H E; simpl. destruct (diag.Contains ds d) eqn:C; [|reflexivity].
  rewrite (Contains_error _ _ C E) in H; discriminate.
Qed.

Lemma decoded_diags_ok req : decodes req -> diag.HasError (decoded_diags req) = false.
Proof. unfold decodes, decoded_diags; intros H. now rewrite HasError_Append, H. Qed.

(* ===================================================================== *)
(** ** The paths through [Read]                                           *)
(* ===================================================================== *)

Lemma Fields_cons_nonempty s file rest : strings.Fields s = file :: rest -> (s =? "") = false.
Proof. intros H. destruct s; [discriminate H | reflexivity]. Qed.

Lemma sh_c_Dir ctx command dir :
  (if negb (dir =? "")
   then exec.set_Dir (exec.CommandContext ctx "/bin/sh" ["-c"; command]) dir
   else exec.CommandContext ctx "/bin/sh" ["-c"; command])
  = sh_c ctx command dir.
Proof. destruct (String.eqb_spec dir ""); subst; reflexivity. Qed.

Ltac step_Read :=
  cbn -[String.eqb strings.Fields diag.Append diag.HasError Run.run
        decoded_diags command_of workingDir_of config_of sh_c append].

Ltac start_Read req :=
  unfold call_Read, call, Read, Config_Get;
  fold (config_of req); fold (command_of req); fold (workingDir_of req);
  step_Read; fold (decoded_diags req).

(** The decoding reports an error: [Read] returns at once. *)
Lemma Read_decode_error h ctx req :
  diag.HasError (decoded_diags req) = true ->
  call_Read h ctx req
  = returned {| State := None; Diagnostics := decoded_diags req |} [].
Proof.
  intros H. start_Read req. rewrite H. reflexivity.
Qed.

(** The empty command. *)
Lemma Read_empty_command h ctx req :
  diag.HasError (decoded_diags req) = false ->
  command_of req = "" ->
  call_Read h ctx req
  = returned {| State := None;
                Diagnostics := (decoded_diags req ++ [MissingCommand])%list |} [].
Proof.
  intros H E. start_Read req. rewrite H. step_Read.
  apply String.eqb_eq in E. rewrite E. step_Read.
  fold MissingCommand. rewrite Append_error by easy. reflexivity.
Qed.

(** A command that is not empty and has no field. *)
Lemma Read_blank_command h ctx req :
  diag.HasError (decoded_diags req) = false ->
  command_of req <> "" ->
  strings.Fields (command_of req) = [] ->
  call_Read h ctx req
  = {| response := {| State := None; Diagnostics := decoded_diags req |};
       calls := [];
       panicked := Some "runtime error: index out of range [0] with length 0";
       blocked := false |}.
Proof.
  intros H E F. start_Read req. rewrite H. step_Read.
  apply String.eqb_neq in E. rewrite E. step_Read.
  rewrite F. reflexivity.
Qed.

(** The first field does not resolve on the search path. *)
Lemma Read_not_found h ctx req file rest :
  diag.HasError (decoded_diags req) = false ->
  strings.Fields (command_of req) = file :: rest ->
  lookPath h file = None ->
  call_Read h ctx req
  = returned {| State := None;
                Diagnostics :=
                  (decoded_diags req ++ [CommandNotFound (command_of req)])%list |}
             [EvLookPath file].
Proof.
  intros H F L. start_Read req. rewrite H. step_Read.
  rewrite (Fields_cons_nonempty _ _ _ F). step_Read.
  rewrite F. step_Read. rewrite L. step_Read.
  fold (CommandNotFound (command_of req)). rewrite Append_error by easy.
  reflexivity.
Qed.

(** The first field resolves and [cmd.Run] returns an error. *)
Lemma Read_run_error h ctx req file rest p e out err :
  diag.HasError (decoded_diags req) = false ->
  strings.Fields (command_of req) = file :: rest ->
  lookPath h file = Some p ->
  Run.run h (sh_c ctx (command_of req) (workingDir_of req)) = Some (Some e, out, err) ->
  call_Read h ctx req
  = returned {| State := None;
                Diagnostics :=
                  (decoded_diags req
                   ++ [CommandExecutionFailed (command_of req) e err])%list |}
             (run_calls ctx file (command_of req) (workingDir_of req) out err).
Proof.
  intros H F L R. start_Read req. rewrite H. step_Read.
  rewrite (Fields_cons_nonempty _ _ _ F). step_Read.
  rewrite F. step_Read. rewrite L. step_Read.
  rewrite sh_c_Dir. unfold Cmd_Run. step_Read. rewrite R. step_Read.
  fold (CommandExecutionFailed (command_of req) e err).
  rewrite Append_error by easy. reflexivity.
Qed.

(** The first field resolves and [cmd.Run] returns [nil]. *)
Lemma Read_run_ok h ctx req file rest p out err :
  diag.HasError (decoded_diags req) = false ->
  strings.Fields (command_of req) = file :: rest ->
  lookPath h file = Some p ->
  Run.run h (sh_c ctx (command_of req) (workingDir_of req)) = Some (None, out, err) ->
  call_Read h ctx req
  = returned {| State := Some (set_result (config_of req) out err);
                Diagnostics := decoded_diags req |}
             (run_calls ctx file (command_of req) (workingDir_of req) out err).
Proof.
  intros H F L R. start_Read req. rewrite H. step_Read.
  rewrite (Fields_cons_nonempty _ _ _ F). step_Read.
  rewrite F. step_Read. rewrite L. step_Read.
  rewrite sh_c_Dir. unfold Cmd_Run. step_Read. rewrite R. reflexivity.
Qed.

(** The first field resolves and [cmd.Run] never returns. *)
Lemma Read_run_blocks h ctx req file rest p :
  diag.HasError (decoded_diags req) = false ->
  strings.Fields (command_of req) = file :: rest ->
  lookPath h file = Some p ->
  Run.run h (sh_c ctx (command_of req) (workingDir_of req)) = None ->
  call_Read h ctx req
  = blocked_in_Run {| State := None; Diagnostics := decoded_diags req |}
                   (blocked_calls ctx file (command_of req) (workingDir_of req)).
Proof.
  intros H F L R. start_Read req. rewrite H. step_Read.
  rewrite (Fields_cons_nonempty _ _ _ F). step_Read.
  rewrite F. step_Read. rewrite L. step_Read.
  rewrite sh_c_Dir. unfold Cmd_Run. step_Read. rewrite R. reflexivity.
Qed.
(* ===================================================================== *)
(** ** [cmd.Run]                                                          *)
(* ===================================================================== *)

Lemma quietUntil_Err_at c t : context.quietUntil c t = true -> context.Err_at c 0 = None.
Proof.
  unfold context.quietUntil, context.Err_at.
  destruct (context.done c) as [[d k]|]; [|reflexivity].
  destruct d; [discriminate | reflexivity].
Qed.

Lemma quietUntil_firesBefore c t :
  context.quietUntil c t = true -> context.firesBefore c t = None.
Proof.
  unfold context.quietUntil, context.firesBefore.
  destruct (context.done c) as [[d k]|]; [|reflexivity].
  intros H. apply andb_true_iff in H as [_ H]. apply Nat.leb_le in H.
  destruct (Nat.ltb_spec d t); [lia | reflexivity].
Qed.

(** The start fails. *)
Lemma run_start_fails h cmd msg :
  context.Err_at (exec.ctx cmd) 0 = None ->
  startProcess h cmd = exec.StartFails msg ->
  Run.run h cmd = Some (Some (startError msg), "", "").
Proof. intros E S. unfold Run.run. now rewrite E, S. Qed.

(** The context is done when [Run] is called. *)
Lemma run_context_done h cmd c :
  context.done (exec.ctx cmd) = Some (0, c) ->
  Run.run h cmd = Some (Some (ctxError c), "", "").
Proof. intros D. unfold Run.run, context.Err_at. now rewrite D. Qed.

(** The process runs to its end. *)
Lemma run_completes h cmd p :
  startProcess h cmd = exec.Started p ->
  context.quietUntil (exec.ctx cmd) (os.exitAt p) = true ->
  Run.run h cmd = Run.await (os.exitWith p) (os.output p).
Proof.
  intros S Q. unfold Run.run.
  now rewrite (quietUntil_Err_at _ _ Q), S, (quietUntil_firesBefore _ _ Q).
Qed.

(** The context is done while the process runs. *)
Lemma run_killed h cmd p t c :
  context.done (exec.ctx cmd) = Some (t, c) ->
  0 < t -> t < os.exitAt p ->
  startProcess h cmd = exec.Started p ->
  Run.run h cmd = Run.await Run.killed (os.outputKilledAt p t).
Proof.
  intros D T0 T S. unfold Run.run, context.Err_at, context.firesBefore.
  rewrite D. destruct t; [lia|]. simpl Nat.leb. cbv iota. rewrite S.
  apply Nat.ltb_lt in T. now rewrite T.
Qed.

(** [Run] returns [nil] only for a process that ran to a successful end. *)
Lemma wait_None st : Run.wait st = None <-> os.Success st = true.
Proof. unfold Run.wait. destruct (os.Success st); split; congruence. Qed.

(** [cmd.Run] asks the host for nothing but the process to start. *)
Lemma run_same_processes h1 h2 cmd :
  same_processes h1 h2 -> Run.run h1 cmd = Run.run h2 cmd.
Proof. intros P. unfold Run.run. now rewrite (P cmd). Qed.

(* ===================================================================== *)
(** ** Outcomes                                                           *)
(* ===================================================================== *)

Lemma categories_no_error ds : diag.HasError ds = false -> categories ds = [].
Proof.
  unfold categories. induction ds as [|d ds IH]; simpl; [reflexivity|].
  intros H. apply orb_false_iff in H as [Hd Hds]. rewrite Hd. simpl. auto.
Qed.

Lemma failures_one ds d c evs :
  diag.HasError ds = false -> diag.is_error d = true -> category d = Some c ->
  failures (returned {| State := None; Diagnostics := (ds ++ [d])%list |} evs) = [c].
Proof.
  intros H E C. unfold failures, categories; simpl. rewrite flat_map_app.
  fold (categories ds). rewrite categories_no_error by assumption.
  simpl. now rewrite E, C.
Qed.

Lemma contains_intro a sub b : contains (a ++ sub ++ b) sub.
Proof. now exists a, b. Qed.

Lemma append_assoc (a b c : string) : (a ++ b) ++ c = a ++ b ++ c.
Proof. induction a; simpl; congruence. Qed.

Lemma append_nil_r (a : string) : a ++ "" = a.
Proof. induction a; simpl; congruence. Qed.

Lemma Sprintf_not_found_contains command :
  contains (Sprintf_not_found command) command.
Proof. apply contains_intro. Qed.

Lemma Sprintf_failed_contains command e errorStr :
  contains (Sprintf_failed command e errorStr) command
  /\ contains (Sprintf_failed command e errorStr) (error_Error e)
  /\ contains (Sprintf_failed command e errorStr) errorStr.
Proof.
  unfold Sprintf_failed. repeat split.
  - exists ("Command execution failed." ++ nl ++ nl ++ "Command: "),
           (nl ++ "Error: " ++ error_Error e ++ nl ++ "Stderr: " ++ errorStr).
    now rewrite !append_assoc.
  - exists ("Command execution failed." ++ nl ++ nl ++ "Command: " ++ command ++ nl
            ++ "Error: "), (nl ++ "Stderr: " ++ errorStr).
    now rewrite !append_assoc.
  - exists ("Command execution failed." ++ nl ++ nl ++ "Command: " ++ command ++ nl
            ++ "Error: " ++ error_Error e ++ nl ++ "Stderr: "), "".
    now rewrite !append_assoc, append_nil_r.
Qed.

(** The seven ways through [Read], each with its whole outcome. *)
Lemma call_Read_paths h ctx req :
  let o := call_Read h ctx req in
  let D := decoded_diags req in
  let command := command_of req in
  let dir := workingDir_of req in
  (diag.HasError D = true
   /\ o = returned {| State := None; Diagnostics := D |} [])
  \/ (diag.HasError D = false /\ command = ""
      /\ o = returned {| State := None;
                         Diagnostics := (D ++ [MissingCommand])%list |} [])
  \/ (diag.HasError D = false /\ command <> "" /\ strings.Fields command = []
      /\ o = {| response := {| State := None; Diagnostics := D |};
                calls := [];
                panicked := Some "runtime error: index out of range [0] with length 0";
                blocked := false |})
  \/ (exists file rest,
         diag.HasError D = false /\ strings.Fields command = file :: rest
         /\ lookPath h file = None
         /\ o = returned {| State := None;
                            Diagnostics := (D ++ [CommandNotFound command])%list |}
                         [EvLookPath file])
  \/ (exists file rest p e out err,
         diag.HasError D = false /\ strings.Fields command = file :: rest
         /\ lookPath h file = Some p
         /\ Run.run h (sh_c ctx command dir) = Some (Some e, out, err)
         /\ o = returned {| State := None;
                            Diagnostics :=
                              (D ++ [CommandExecutionFailed command e err])%list |}
                         (run_calls ctx file command dir out err))
  \/ (exists file rest p out err,
         diag.HasError D = false /\ strings.Fields command = file :: rest
         /\ lookPath h file = Some p
         /\ Run.run h (sh_c ctx command dir) = Some (None, out, err)
         /\ o = returned {| State := Some (set_result (config_of req) out err);
                            Diagnostics := D |}
                         (run_calls ctx file command dir out err))
  \/ (exists file rest p,
         diag.HasError D = false /\ strings.Fields command = file :: rest
         /\ lookPath h file = Some p
         /\ Run.run h (sh_c ctx command dir) = None
         /\ o = blocked_in_Run {| State := None; Diagnostics := D |}
                               (blocked_calls ctx file command dir)).
Proof.
  cbv zeta.
  destruct (diag.HasError (decoded_diags req)) eqn:H.
  { left. split; [reflexivity | now apply Read_decode_error]. }
  right.
  destruct (String.eqb_spec (command_of req) "") as [E|E].
  { left. repeat split; [assumption | now apply Read_empty_command]. }
  right.
  destruct (strings.Fields (command_of req)) as [|file rest] eqn:F.
  { left. repeat split; [assumption | now apply Read_blank_command]. }
  right.
  destruct (lookPath h file) as [p|] eqn:L.
  2:{ left. exists file, rest. repeat split; try assumption.
      now apply (Read_not_found _ _ _ file rest). }
  right.
  destruct (Run.run h (sh_c ctx (command_of req) (workingDir_of req)))
    as [[[[e|] out] err]|] eqn:R.
  - left. exists file, rest, p, e, out, err. repeat split; try assumption.
    now apply (Read_run_error _ _ _ file rest p).
  - right; left. exists file, rest, p, out, err. repeat split; try assumption.
    now apply (Read_run_ok _ _ _ file rest p).
  - right; right. exists file, rest, p. repeat split; try assumption.
    now apply (Read_run_blocks _ _ _ file rest p).
Qed.

Ltac Read_paths h ctx req :=
  destruct (call_Read_paths h ctx req)
    as [[?H ?O] | [(?H & ?E & ?O) | [(?H & ?E & ?F & ?O)
       | [(?file & ?rest & ?H & ?F & ?L & ?O)
       | [(?file & ?rest & ?p & ?e & ?out & ?err & ?H & ?F & ?L & ?R & ?O)
       | [(?file & ?rest & ?p & ?out & ?err & ?H & ?F & ?L & ?R & ?O)
       | (?file & ?rest & ?p & ?H & ?F & ?L & ?R & ?O)]]]]]].

(** Every call either writes a state computed from the configuration, with
    no error reported, or fails and leaves the state null. *)
Lemma call_Read_cases h ctx req :
  let o := call_Read h ctx req in
  (exists out err,
      State (response o) = Some (set_result (config_of req) out err)
      /\ failed o = false)
  \/ (State (response o) = None /\ failed o = true).
Proof.
  cbv zeta. unfold failed.
  Read_paths h ctx req; rewrite O; simpl;
    try (right; split; [reflexivity|];
         rewrite ?HasError_app; simpl;
         rewrite ?orb_true_r, ?H; reflexivity).
  left. exists out, err. now rewrite H.
Qed.

(** The empty command is rejected before anything is looked up or run. *)
Lemma Read_empty_command_missing h ctx req :
  decodes req ->
  command_of req = "" ->
  let o := call_Read h ctx req in
  failures o = [EmptyCommandError]
  /\ State (response o) = None
  /\ lookups o = [] /\ spawns o = [] /\ panicked o = None.
Proof.
  intros D E. cbv zeta. pose proof (decoded_diags_ok _ D) as H.
  rewrite (Read_empty_command _ _ _ H E). repeat split.
  now apply failures_one.
Qed.

(** When the first field resolves, the one command handed to [cmd.Run] is the
    shell on the command, whatever becomes of the run. *)
Lemma spawns_resolved h ctx req file rest p :
  diag.HasError (Get_diags (Config req)) = false ->
  strings.Fields (command_of req) = file :: rest ->
  lookPath h file = Some p ->
  spawns (call_Read h ctx req) = [sh_c ctx (command_of req) (workingDir_of req)].
Proof.
  intros D F L.
  pose proof (decoded_diags_ok _ D) as H.
  destruct (Run.run h (sh_c ctx (command_of req) (workingDir_of req)))
    as [[[[e|] out] err]|] eqn:R.
  - now rewrite (Read_run_error _ _ _ _ _ _ _ _ _ H F L R).
  - now rewrite (Read_run_ok _ _ _ _ _ _ _ _ H F L R).
  - now rewrite (Read_run_blocks _ _ _ _ _ _ H F L R).
Qed.

(** Text written by a descendant after the shell has ended is captured too:
    [cmd.Run] reads the pipes to their end. *)
Example Read_captures_late_output :
  option_map Output
    (State (response (call_Read Demo.host context.Background
                        (Demo.cmd "echo started; (sleep 1; echo late) &"))))
  = Some (types.StringValue ("started" ++ nl ++ "late" ++ nl)).
Proof. reflexivity. Qed.

(* ===================================================================== *)
(** ** The properties of [Read]                                           *)
(* ===================================================================== *)

(** C1, on the code. [Read] compares the command with the empty string only.
    A command of one space is not empty, so it passes the test; it has no
    field, so [strings.Fields(command)[0]] panics. On every host and under
    every context the call ends in that panic: no diagnostic is reported (no
    'Missing Command'), the state stays null, nothing is looked up or run. *)
Theorem C1_blank_command_panics (h : Host) (ctx : context.Context) :
  let req := Demo.cmd " " in
  strings.all_space (command_of req) = true
  /\ call_Read h ctx req
     = {| response := {| State := None; Diagnostics := [] |};
          calls := [];
          panicked := Some "runtime error: index out of range [0] with length 0";
          blocked := false |}
  /\ failures (call_Read h ctx req) = [].
Proof.
  cbv zeta. split; [reflexivity|].
  assert (E : call_Read h ctx (Demo.cmd " ")
              = {| response := {| State := None; Diagnostics := [] |};
                   calls := [];
                   panicked := Some "runtime error: index out of range [0] with length 0";
                   blocked := false |}).
  { apply Read_blank_command; [reflexivity | discriminate | reflexivity]. }
  split; [exact E | now rewrite E].
Qed.

(** C2, counterexample. The context is cancelled at instant 3 while
    [sleep 10] runs until instant 10. The call reports one error, of
    the category ExecutionFailedError ('Command Execution Failed'), the very
    category reported for [false], which exits with status 1; it does not
    report a CancelledError. And when the shell that is killed has left a
    descendant holding its pipes ([tail -f /dev/null & sleep 10]), the call
    reports nothing: it never returns. *)
Lemma C2_cancelled_run_reports_execution_failed :
  let ctx := Demo.cancelAt 3 in
  let o := call_Read Demo.host ctx (Demo.cmd "sleep 10") in
  let o' := call_Read Demo.host ctx (Demo.cmd "tail -f /dev/null & sleep 10") in
  context.firesBefore ctx (os.exitAt (Demo.sh "sleep 10")) = Some 3
  /\ failures o = [ExecutionFailedError]
  /\ failures o <> [CancelledError]
  /\ failures o = failures (call_Read Demo.host context.Background (Demo.cmd "false"))
  /\ map diag.Summary (Diagnostics (response o)) = ["Command Execution Failed"]
  /\ context.firesBefore ctx (os.exitAt (Demo.sh "tail -f /dev/null & sleep 10")) = Some 3
  /\ blocked o' = true
  /\ Diagnostics (response o') = [].
Proof. vm_compute. repeat split; discriminate. Qed.

(** C2, amended. When the context is done (at an instant [t]) after the child
    was started and before it exits, the state stays null: no successful
    result is returned. If [cmd.Run] returns, [Read] fails with the 'Command
    Execution Failed' diagnostic, category ExecutionFailedError, whose error
    text is that of the killed process; if a pipe of the killed child never
    reaches end of file, [Read] reports nothing and never returns. *)
Theorem C2_cancelled_run_fails h ctx req file rest p proc t c :
  decodes req ->
  strings.Fields (command_of req) = file :: rest ->
  lookPath h file = Some p ->
  startProcess h (sh_c ctx (command_of req) (workingDir_of req)) = exec.Started proc ->
  context.done ctx = Some (t, c) -> 0 < t -> t < os.exitAt proc ->
  let o := call_Read h ctx req in
  State (response o) = None
  /\ (forall out err,
         os.outputKilledAt proc t = Some (out, err) ->
         o = returned
               {| State := None;
                  Diagnostics :=
                    (decoded_diags req
                     ++ [CommandExecutionFailed (command_of req)
                           (ExitError (os.Signaled "killed")) err])%list |}
               (run_calls ctx file (command_of req) (workingDir_of req) out err)
         /\ failures o = [ExecutionFailedError])
  /\ (os.outputKilledAt proc t = None ->
      blocked o = true /\ Diagnostics (response o) = decoded_diags req).
Proof.
  intros D F L S Dn T0 T. cbv zeta.
  pose proof (decoded_diags_ok _ D) as H.
  pose proof (run_killed h (sh_c ctx (command_of req) (workingDir_of req))
                         proc t c Dn T0 T S) as R.
  destruct (os.outputKilledAt proc t) as [[out err]|] eqn:K; simpl in R.
  - rewrite (Read_run_error _ _ _ _ _ _ _ _ _ H F L R).
    split; [reflexivity|]. split; [|discriminate].
    intros out' err' E. injection E as <- <-.
    split; [reflexivity | now apply failures_one].
  - rewrite (Read_run_blocks _ _ _ _ _ _ H F L R).
    split; [reflexivity|]. split; [discriminate|]. intros _. split; reflexivity.
Qed.

Lemma C2_cancelled_run_fails_witness :
  State (response (call_Read Demo.host (Demo.cancelAt 3) (Demo.cmd "sleep 10"))) = None
  /\ failures (call_Read Demo.host (Demo.cancelAt 3) (Demo.cmd "sleep 10"))
     = [ExecutionFailedError].
Proof.
  assert (T0 : 0 < 3) by lia.
  assert (T : 3 < os.exitAt (Demo.sh "sleep 10")) by (vm_compute; lia).
  destruct (C2_cancelled_run_fails Demo.host (Demo.cancelAt 3)
              (Demo.cmd "sleep 10") "sleep" ["10"] "/usr/bin/sleep"
              (Demo.sh "sleep 10") 3 context.Canceled
              eq_refl eq_refl eq_refl eq_refl eq_refl T0 T) as (W1 & W2 & _).
  split; [exact W1|]. exact (proj2 (W2 "" "" eq_refl)).
Defined.

(** C3, counterexample. [tail -f /dev/null &]: the first field resolves and
    the shell exits with status 0 at once, but the command it left in the
    background holds the two pipes open and never ends. [cmd.Run] waits for
    their end of file, so the call never returns and gives no result. *)
Lemma C3_exit_zero_without_a_result :
  let req := Demo.cmd "tail -f /dev/null &" in
  let o := call_Read Demo.host context.Background req in
  strings.Fields (command_of req) = ["tail"; "-f"; "/dev/null"; "&"]
  /\ lookPath Demo.host "tail" = Some "/usr/bin/tail"
  /\ startProcess Demo.host
       (sh_c context.Background (command_of req) (workingDir_of req))
     = exec.Started (Demo.sh "tail -f /dev/null &")
  /\ os.exitWith (Demo.sh "tail -f /dev/null &") = os.Exited 0
  /\ blocked o = true
  /\ State (response o) = None.
Proof. vm_compute. repeat split. Qed.

(** C3, amended. A command whose first field resolves, whose child runs to
    its end with status 0, and whose two pipes reach end of file (so that
    [cmd.Run] returns) gives a state with the whole text captured from
    standard output, the whole text captured from standard error and the id
    ["-"]; no error is reported. *)
Theorem C3_successful_run_result h ctx req file rest p proc out err :
  decodes req ->
  strings.Fields (command_of req) = file :: rest ->
  lookPath h file = Some p ->
  startProcess h (sh_c ctx (command_of req) (workingDir_of req)) = exec.Started proc ->
  context.quietUntil ctx (os.exitAt proc) = true ->
  os.exitWith proc = os.Exited 0 ->
  os.output proc = Some (out, err) ->
  let o := call_Read h ctx req in
  State (response o)
  = Some {| Command := Command (config_of req);
            WorkingDir := WorkingDir (config_of req);
            Output := types.StringValue out;
            Error := types.StringValue err;
            ID := types.StringValue "-" |}
  /\ failed o = false.
Proof.
  intros D F L S Q X P. cbv zeta.
  pose proof (decoded_diags_ok _ D) as H.
  pose proof (run_completes _ _ _ S Q) as R. rewrite X, P in R.
  rewrite (Read_run_ok _ _ _ _ _ _ _ _ H F L R).
  split; [reflexivity|]. unfold failed; simpl. now rewrite H.
Qed.

(** The scenario of the specification: [echo hello], no working directory. *)
Lemma C3_successful_run_result_witness :
  State (response (call_Read Demo.host context.Background (Demo.cmd "echo hello")))
  = Some {| Command := types.StringValue "echo hello";
            WorkingDir := types.StringNull;
            Output := types.StringValue ("hello" ++ nl);
            Error := types.StringValue "";
            ID := types.StringValue "-" |}.
Proof.
  refine (proj1 (C3_successful_run_result Demo.host context.Background
            (Demo.cmd "echo hello") "echo" ["hello"] "/usr/bin/echo"
            (Demo.sh "echo hello") ("hello" ++ nl) "" _ _ _ _ _ _ _)); reflexivity.
Defined.

(** C4, counterexample. [tail -f /dev/null & exit 3]: the shell exits with
    status 3, but the command it left in the background holds the two pipes
    open, so [cmd.Run] never returns: no 'Command Execution Failed' is
    reported, the call does not fail, it hangs. *)
Lemma C4_nonzero_exit_without_a_failure :
  let req := Demo.cmd "tail -f /dev/null & exit 3" in
  let o := call_Read Demo.host context.Background req in
  strings.Fields (command_of req) = ["tail"; "-f"; "/dev/null"; "&"; "exit"; "3"]
  /\ lookPath Demo.host "tail" = Some "/usr/bin/tail"
  /\ startProcess Demo.host
       (sh_c context.Background (command_of req) (workingDir_of req))
     = exec.Started (Demo.sh "tail -f /dev/null & exit 3")
  /\ os.exitWith (Demo.sh "tail -f /dev/null & exit 3") = os.Exited 3
  /\ blocked o = true
  /\ Diagnostics (response o) = []
  /\ failures o = [].
Proof. vm_compute. repeat split. Qed.

(** C4, amended. Once the first field has resolved and the context is not
    done at the start: a start that fails (a working directory that does not
    exist, for one) makes [Read] fail with 'Command Execution Failed',
    category ExecutionFailedError; so does a child that ends unsuccessfully
    (a status other than 0, or a signal) once its two pipes have reached end
    of file. The detail holds the command, the text of the error and the
    whole captured standard error. For a child that ends unsuccessfully the
    state stays null in every case, whatever was written to standard
    output. *)
Theorem C4_failed_run_reports_execution_failed h ctx req file rest p :
  decodes req ->
  strings.Fields (command_of req) = file :: rest ->
  lookPath h file = Some p ->
  context.Err_at ctx 0 = None ->
  let command := command_of req in
  let cmd := sh_c ctx command (workingDir_of req) in
  let o := call_Read h ctx req in
  (forall msg,
      startProcess h cmd = exec.StartFails msg ->
      o = returned
            {| State := None;
               Diagnostics :=
                 (decoded_diags req
                  ++ [CommandExecutionFailed command (startError msg) ""])%list |}
            (run_calls ctx file command (workingDir_of req) "" "")
      /\ failures o = [ExecutionFailedError])
  /\ (forall proc,
      startProcess h cmd = exec.Started proc ->
      context.quietUntil ctx (os.exitAt proc) = true ->
      os.Success (os.exitWith proc) = false ->
      State (response o) = None
      /\ forall out err,
          os.output proc = Some (out, err) ->
          o = returned
                {| State := None;
                   Diagnostics :=
                     (decoded_diags req
                      ++ [CommandExecutionFailed command
                            (ExitError (os.exitWith proc)) err])%list |}
                (run_calls ctx file command (workingDir_of req) out err)
          /\ failures o = [ExecutionFailedError])
  /\ (forall e errorStr,
      let detail := diag.Detail (CommandExecutionFailed command e errorStr) in
      contains detail command
      /\ contains detail (error_Error e)
      /\ contains detail errorStr).
Proof.
  intros D F L E. cbv zeta.
  pose proof (decoded_diags_ok _ D) as H.
  split; [|split].
  - intros msg S.
    rewrite (Read_run_error _ _ _ _ _ _ _ _ _ H F L
               (run_start_fails h (sh_c ctx (command_of req) (workingDir_of req))
                                msg E S)).
    split; [reflexivity | now apply failures_one].
  - intros proc S Q X.
    pose proof (run_completes _ _ _ S Q) as R.
    destruct (os.output proc) as [[out err]|] eqn:P; simpl in R.
    + unfold Run.wait in R. rewrite X in R.
      rewrite (Read_run_error _ _ _ _ _ _ _ _ _ H F L R).
      split; [reflexivity|]. intros out' err' E'. injection E' as <- <-.
      split; [reflexivity | now apply failures_one].
    + rewrite (Read_run_blocks _ _ _ _ _ _ H F L R).
      split; [reflexivity | discriminate].
  - intros e errorStr. apply Sprintf_failed_contains.
Qed.

(** [ls /nope] exits with status 2 after writing to its standard error. *)
Lemma C4_failed_run_reports_execution_failed_witness :
  response (call_Read Demo.host context.Background (Demo.cmd "ls /nope"))
  = {| State := None;
       Diagnostics :=
         [CommandExecutionFailed "ls /nope" (ExitError (os.Exited 2))
            ("ls: cannot access '/nope': No such file or directory" ++ nl)] |}.
Proof.
  pose proof (C4_failed_run_reports_execution_failed Demo.host context.Background
                (Demo.cmd "ls /nope") "ls" ["/nope"] "/usr/bin/ls"
                eq_refl eq_refl eq_refl eq_refl) as W.
  destruct W as [_ [W _]].
  destruct (W (Demo.sh "ls /nope") eq_refl eq_refl eq_refl) as [_ W'].
  destruct (W' _ _ eq_refl) as [W'' _].
  rewrite W''. reflexivity.
Defined.

(** C5. When the command has a first field and that field does not resolve
    on the search path, [Read] fails with 'Command Not Found', category
    ExecutableNotFoundError; the detail holds the command as given; the one
    call to the outside is the lookup, and no command is run. *)
Theorem C5_unresolved_command_not_found h ctx req file rest :
  decodes req ->
  strings.Fields (command_of req) = file :: rest ->
  lookPath h file = None ->
  let o := call_Read h ctx req in
  o = returned
        {| State := None;
           Diagnostics :=
             (decoded_diags req ++ [CommandNotFound (command_of req)])%list |}
        [EvLookPath file]
  /\ failures o = [ExecutableNotFoundError]
  /\ contains (diag.Detail (CommandNotFound (command_of req))) (command_of req)
  /\ spawns o = [].
Proof.
  intros D F L. cbv zeta.
  pose proof (decoded_diags_ok _ D) as H.
  rewrite (Read_not_found _ _ _ _ _ H F L).
  repeat split.
  - now apply failures_one.
  - apply Sprintf_not_found_contains.
Qed.

Lemma C5_unresolved_command_not_found_witness :
  spawns (call_Read Demo.host context.Background (Demo.cmd "nonexistent-binary-xyz")) = []
  /\ failures (call_Read Demo.host context.Background (Demo.cmd "nonexistent-binary-xyz"))
     = [ExecutableNotFoundError].
Proof.
  pose proof (C5_unresolved_command_not_found Demo.host context.Background
                (Demo.cmd "nonexistent-binary-xyz") "nonexistent-binary-xyz" []
                eq_refl eq_refl eq_refl) as W.
  destruct W as [_ [W1 [_ W2]]]. split; assumption.
Defined.

(** C6. Every call ends in one of two ways. Either it did not fail, and the
    state holds a model whose output, error and id are all set; or it failed
    (an error was reported, or it panicked, or it never returns), and the
    state is null. *)
Theorem C6_result_is_whole_or_absent h ctx req :
  let o := call_Read h ctx req in
  (failed o = false
   /\ exists m, State (response o) = Some m /\ populated m = true)
  \/ (failed o = true /\ State (response o) = None).
Proof.
  cbv zeta. destruct (call_Read_cases h ctx req) as [[out [err [S Fl]]] | [S Fl]].
  - left. split; [assumption|]. eexists; split; [exact S | reflexivity].
  - right. split; assumption.
Qed.

(** C7. When the first field of the command has resolved, exactly one command
    is run: [/bin/sh] with the arguments [-c] and the command string itself,
    whole and unchanged, in the working directory of the request. *)
Theorem C7_runs_the_shell_on_the_whole_command h ctx req file rest p :
  decodes req ->
  strings.Fields (command_of req) = file :: rest ->
  lookPath h file = Some p ->
  spawns (call_Read h ctx req)
  = [ {| exec.ctx := ctx;
         exec.Path := "/bin/sh";
         exec.Args := ["/bin/sh"; "-c"; command_of req];
         exec.Dir := workingDir_of req |} ].
Proof.
  intros D F L.
  pose proof (decoded_diags_ok _ D) as H.
  destruct (Run.run h (sh_c ctx (command_of req) (workingDir_of req)))
    as [[[[e|] out] err]|] eqn:R.
  - now rewrite (Read_run_error _ _ _ _ _ _ _ _ _ H F L R).
  - now rewrite (Read_run_ok _ _ _ _ _ _ _ _ H F L R).
  - now rewrite (Read_run_blocks _ _ _ _ _ _ H F L R).
Qed.

(** A pipeline with a redirection reaches the shell as it was written. *)
Lemma C7_runs_the_shell_on_the_whole_command_witness :
  map exec.Args
      (spawns (call_Read Demo.host context.Background
                 (Demo.cmd "echo a | tr a b > /dev/null; ls *")))
  = [["/bin/sh"; "-c"; "echo a | tr a b > /dev/null; ls *"]].
Proof.
  rewrite (C7_runs_the_shell_on_the_whole_command Demo.host context.Background
             (Demo.cmd "echo a | tr a b > /dev/null; ls *")
             "echo" ["a"; "|"; "tr"; "a"; "b"; ">"; "/dev/null;"; "ls"; "*"]
             "/usr/bin/echo" eq_refl eq_refl eq_refl).
  reflexivity.
Defined.

(** C8, counterexample. [pwd] with the working directory given as the empty
    string and with no working directory: the two calls write different
    states, one repeating the empty string and one repeating null, so they
    can be told apart. *)
Lemma C8_written_states_differ :
  let o1 := call_Read Demo.host context.Background
              (Demo.request (types.StringValue "pwd") (types.StringValue "")) in
  let o2 := call_Read Demo.host context.Background
              (Demo.request (types.StringValue "pwd") types.StringNull) in
  option_map WorkingDir (State (response o1)) = Some (types.StringValue "")
  /\ option_map WorkingDir (State (response o2)) = Some types.StringNull
  /\ State (response o1) <> State (response o2)
  /\ o1 <> o2.
Proof.
  cbv zeta. split; [reflexivity|]. split; [reflexivity|].
  split; [vm_compute; discriminate|].
  intros E. apply (f_equal (fun o => option_map WorkingDir (State (response o)))) in E.
  vm_compute in E. discriminate.
Qed.

(** C8, amended. A working directory given as the empty string and a working
    directory left out run the command in the same way: the same diagnostics,
    the same calls to the outside, the same panic if any, the same output,
    error and id. When the first field of the command resolves, the one
    command run is the shell with no directory set, so that the child starts
    in the directory of the caller. The two calls differ in one thing: the
    written state repeats the attribute as it was configured. *)
Theorem C8_empty_working_dir_is_absent h ctx cfg ds :
  let req wd := {| Config := {| Get_value := with_WorkingDir cfg wd;
                                Get_diags := ds |} |} in
  let o1 := call_Read h ctx (req (types.StringValue "")) in
  let o2 := call_Read h ctx (req types.StringNull) in
  observation o1 = observation o2
  /\ (forall c, In c (spawns o1) -> exec.Dir c = "")
  /\ State (response o1)
     = option_map (fun m => with_WorkingDir m (types.StringValue ""))
                  (State (response o2))
  /\ (forall file rest p,
         diag.HasError ds = false ->
         strings.Fields (types.ValueString (Command cfg)) = file :: rest ->
         lookPath h file = Some p ->
         spawns o1 = [sh_c ctx (types.ValueString (Command cfg)) ""]
         /\ spawns o2 = [sh_c ctx (types.ValueString (Command cfg)) ""]).
Proof.
  cbv zeta.
  set (r1 := {| Config := {| Get_value := with_WorkingDir cfg (types.StringValue "");
                             Get_diags := ds |} |}).
  set (r2 := {| Config := {| Get_value := with_WorkingDir cfg types.StringNull;
                             Get_diags := ds |} |}).
  assert (Sp : forall file rest p,
             diag.HasError ds = false ->
             strings.Fields (types.ValueString (Command cfg)) = file :: rest ->
             lookPath h file = Some p ->
             spawns (call_Read h ctx r1) = [sh_c ctx (types.ValueString (Command cfg)) ""]
             /\ spawns (call_Read h ctx r2)
                = [sh_c ctx (types.ValueString (Command cfg)) ""]).
  { intros file rest p D F L. split.
    - exact (spawns_resolved h ctx r1 file rest p D F L).
    - exact (spawns_resolved h ctx r2 file rest p D F L). }
  assert (G : observation (call_Read h ctx r1) = observation (call_Read h ctx r2)
              /\ (forall c, In c (spawns (call_Read h ctx r1)) -> exec.Dir c = "")
              /\ State (response (call_Read h ctx r1))
                 = option_map (fun m => with_WorkingDir m (types.StringValue ""))
                              (State (response (call_Read h ctx r2)))).
  { Read_paths h ctx r1; rewrite O.
    - rewrite (Read_decode_error h ctx r2 H).
      split; [reflexivity|]. split; [intros c [] | reflexivity].
    - rewrite (Read_empty_command h ctx r2 H E).
      split; [reflexivity|]. split; [intros c [] | reflexivity].
    - rewrite (Read_blank_command h ctx r2 H E F).
      split; [reflexivity|]. split; [intros c [] | reflexivity].
    - rewrite (Read_not_found h ctx r2 file rest H F L).
      split; [reflexivity|]. split; [intros c [] | reflexivity].
    - rewrite (Read_run_error h ctx r2 file rest p e out err H F L R).
      split; [reflexivity|]. split; [intros c [<-|[]]; reflexivity | reflexivity].
    - rewrite (Read_run_ok h ctx r2 file rest p out err H F L R).
      split; [reflexivity|]. split; [intros c [<-|[]]; reflexivity | reflexivity].
    - rewrite (Read_run_blocks h ctx r2 file rest p H F L R).
      split; [reflexivity|]. split; [intros c [<-|[]]; reflexivity | reflexivity]. }
  destruct G as (G1 & G2 & G3). repeat split; try assumption; now apply (Sp file rest p).
Qed.

Lemma C8_empty_working_dir_is_absent_witness :
  spawns (call_Read Demo.host context.Background
            (Demo.request (types.StringValue "pwd") (types.StringValue "")))
  = [sh_c context.Background "pwd" ""]
  /\ result_of (call_Read Demo.host context.Background
                  (Demo.request (types.StringValue "pwd") (types.StringValue "")))
     = result_of (call_Read Demo.host context.Background
                    (Demo.request (types.StringValue "pwd") types.StringNull)).
Proof.
  destruct (C8_empty_working_dir_is_absent Demo.host context.Background
              (Demo.model (types.StringValue "pwd") types.StringNull) [])
    as (W1 & _ & _ & W4).
  split.
  - exact (proj1 (W4 "pwd" [] "/usr/bin/pwd" eq_refl eq_refl eq_refl)).
  - exact (f_equal (fun x => fst (fst (fst (fst x)))) W1).
Defined.

(** C9, counterexample. [echo oops >&2; tail -f /dev/null &] writes to its
    standard error and exits with status 0, but what it left in the
    background holds the two pipes open: [cmd.Run] never returns, and no
    successful result is returned. *)
Lemma C9_exit_zero_with_stderr_without_a_result :
  let req := Demo.cmd "echo oops >&2; tail -f /dev/null &" in
  let o := call_Read Demo.host context.Background req in
  strings.Fields (command_of req) = ["echo"; "oops"; ">&2;"; "tail"; "-f"; "/dev/null"; "&"]
  /\ lookPath Demo.host "echo" = Some "/usr/bin/echo"
  /\ startProcess Demo.host
       (sh_c context.Background (command_of req) (workingDir_of req))
     = exec.Started (Demo.sh "echo oops >&2; tail -f /dev/null &")
  /\ os.exitWith (Demo.sh "echo oops >&2; tail -f /dev/null &") = os.Exited 0
  /\ blocked o = true
  /\ State (response o) = None.
Proof. vm_compute. repeat split. Qed.

(** C9, amended. For a child that was started and ran to its end, a state is
    written exactly when the process state is a success (status 0) and the
    two pipes reach end of file: the text captured from standard error has no
    part in it. When [cmd.Run] returns, the call succeeds exactly when the
    process state is a success, and then whatever was captured from standard
    error is the error attribute of the state. *)
Theorem C9_success_is_decided_by_the_exit_status h ctx req file rest p proc :
  decodes req ->
  strings.Fields (command_of req) = file :: rest ->
  lookPath h file = Some p ->
  startProcess h (sh_c ctx (command_of req) (workingDir_of req)) = exec.Started proc ->
  context.quietUntil ctx (os.exitAt proc) = true ->
  let o := call_Read h ctx req in
  isSome (State (response o)) = os.Success (os.exitWith proc) && isSome (os.output proc)
  /\ forall out err,
      os.output proc = Some (out, err) ->
      negb (failed o) = os.Success (os.exitWith proc)
      /\ (os.exitWith proc = os.Exited 0 ->
          option_map Error (State (response o)) = Some (types.StringValue err)).
Proof.
  intros D F L S Q. cbv zeta.
  pose proof (decoded_diags_ok _ D) as H.
  pose proof (run_completes _ _ _ S Q) as R. unfold Run.await, Run.wait in R.
  destruct (os.output proc) as [[out err]|] eqn:P.
  - destruct (os.Success (os.exitWith proc)) eqn:X.
    + rewrite (Read_run_ok _ _ _ _ _ _ _ _ H F L R).
      split; [reflexivity|]. intros out' err' E. injection E as <- <-.
      unfold failed; simpl. rewrite H. split; reflexivity.
    + rewrite (Read_run_error _ _ _ _ _ _ _ _ _ H F L R).
      split; [reflexivity|]. intros out' err' E. injection E as <- <-.
      unfold failed; simpl. rewrite HasError_app; simpl. rewrite orb_true_r.
      split; [reflexivity|]. intros X'. rewrite X' in X. discriminate.
  - rewrite (Read_run_blocks _ _ _ _ _ _ H F L R).
    split; [simpl; now rewrite andb_false_r | discriminate].
Qed.

(** [echo oops >&2] writes to its standard error and exits with status 0. *)
Lemma C9_success_is_decided_by_the_exit_status_witness :
  let o := call_Read Demo.host context.Background (Demo.cmd "echo oops >&2") in
  failed o = false
  /\ option_map Error (State (response o)) = Some (types.StringValue ("oops" ++ nl)).
Proof.
  pose proof (C9_success_is_decided_by_the_exit_status Demo.host context.Background
                (Demo.cmd "echo oops >&2") "echo" ["oops"; ">&2"] "/usr/bin/echo"
                (Demo.sh "echo oops >&2") eq_refl eq_refl eq_refl eq_refl eq_refl) as W.
  destruct W as [_ W]. destruct (W _ _ eq_refl) as [W1 W2]. cbv zeta. split.
  - apply negb_true_iff. exact W1.
  - exact (W2 eq_refl).
Defined.

(** C10. A state that [Read] has written holds the command and the working
    directory of the configuration as they were given, null or unknown
    included; the other three attributes are the computed ones. *)
Theorem C10_state_keeps_the_configured_attributes h ctx req m :
  State (response (call_Read h ctx req)) = Some m ->
  Command m = Command (config_of req)
  /\ WorkingDir m = WorkingDir (config_of req)
  /\ exists out err,
      Output m = types.StringValue out
      /\ Error m = types.StringValue err
      /\ ID m = types.StringValue "-".
Proof.
  intros S.
  destruct (call_Read_cases h ctx req) as [[out [err [S' _]]] | [S' _]];
    rewrite S' in S; [|discriminate].
  injection S as <-. repeat split. exists out, err. repeat split.
Qed.

Lemma C10_state_keeps_the_configured_attributes_witness :
  exists m,
    State (response (call_Read Demo.host context.Background
                       (Demo.request (types.StringValue "pwd") (types.StringValue ""))))
    = Some m
    /\ Command m = types.StringValue "pwd"
    /\ WorkingDir m = types.StringValue "".
Proof.
  eexists. split; [reflexivity|].
  destruct (C10_state_keeps_the_configured_attributes Demo.host context.Background
              (Demo.request (types.StringValue "pwd") (types.StringValue ""))
              _ eq_refl) as [W1 [W2 _]].
  split; [exact W1 | exact W2].
Defined.

(* ===================================================================== *)
(** ** Further properties of [Read]                                       *)
(* ===================================================================== *)

(** X1. When the decoding of the configuration reports an error, [Read]
    returns at once: the response holds the diagnostics of the decoding and
    nothing more, the state is null, and nothing is looked up, traced or run,
    whatever the command is. *)
Theorem X1_decode_error_stops_Read h ctx req :
  diag.HasError (Get_diags (Config req)) = true ->
  call_Read h ctx req
  = returned {| State := None; Diagnostics := decoded_diags req |} [].
Proof.
  intros H. apply Read_decode_error.
  unfold decoded_diags. now rewrite HasError_Append, H.
Qed.

Lemma X1_decode_error_stops_Read_witness :
  calls (call_Read Demo.host context.Background
           (request_of (Demo.model (types.StringValue "echo hello") types.StringNull)
              [{| diag.Sev := diag.SeverityError;
                  diag.Summary := "Value Conversion Error";
                  diag.Detail := "";
                  diag.Attribute := None |}]))
  = [].
Proof.
  rewrite (X1_decode_error_stops_Read Demo.host context.Background
             (request_of (Demo.model (types.StringValue "echo hello") types.StringNull)
                [{| diag.Sev := diag.SeverityError;
                    diag.Summary := "Value Conversion Error";
                    diag.Detail := "";
                    diag.Attribute := None |}])
             eq_refl).
  reflexivity.
Defined.

(** X2. A command that is null, unknown or the empty string is rejected with
    the error 'Missing Command' on the attribute [command], added after the
    diagnostics of the decoding; nothing is looked up or run and the state
    stays null. *)
Theorem X2_null_unknown_or_empty_command h ctx req :
  decodes req ->
  Command (config_of req) = types.StringNull
  \/ Command (config_of req) = types.StringUnknown
  \/ Command (config_of req) = types.StringValue "" ->
  call_Read h ctx req
  = returned
      {| State := None;
         Diagnostics :=
           (decoded_diags req
            ++ [diag.NewAttributeErrorDiagnostic (path.Root "command")
                  "Missing Command"
                  "The command cannot be empty. Please specify a valid shell command."])%list |}
      [].
Proof.
  intros D C. apply Read_empty_command; [now apply decoded_diags_ok|].
  unfold command_of. destruct C as [C|[C|C]]; now rewrite C.
Qed.

Lemma X2_null_unknown_or_empty_command_witness :
  failures (call_Read Demo.host context.Background
              (Demo.request types.StringUnknown types.StringNull))
  = [EmptyCommandError].
Proof.
  rewrite (X2_null_unknown_or_empty_command Demo.host context.Background
             (Demo.request types.StringUnknown types.StringNull)
             eq_refl (or_intror (or_introl eq_refl))).
  reflexivity.
Defined.

(** X3. Every command that is not empty and consists of white space only
    (of any Unicode white space, not of ASCII blanks alone) passes the test
    for the empty command and makes [Read] panic on the first field that is
    not there: nothing is reported, looked up or run, and the state stays
    null. *)
Theorem X3_whitespace_only_command_panics h ctx req :
  decodes req ->
  command_of req <> "" ->
  strings.all_space (command_of req) = true ->
  call_Read h ctx req
  = {| response := {| State := None; Diagnostics := decoded_diags req |};
       calls := [];
       panicked := Some "runtime error: index out of range [0] with length 0";
       blocked := false |}.
Proof.
  intros D E A. apply Read_blank_command;
    [now apply decoded_diags_ok | assumption | now apply Fields_nil_iff].
Qed.

(** A tab followed by U+00A0 (bytes C2 A0). *)
Lemma X3_whitespace_only_command_panics_witness :
  panicked (call_Read Demo.host context.Background
              (Demo.cmd (String (ascii_of_nat 9)
                           (String (ascii_of_nat 194) (String (ascii_of_nat 160) "")))))
  = Some "runtime error: index out of range [0] with length 0".
Proof.
  rewrite (X3_whitespace_only_command_panics Demo.host context.Background
             (Demo.cmd (String (ascii_of_nat 9)
                          (String (ascii_of_nat 194) (String (ascii_of_nat 160) ""))))
             eq_refl ltac:(discriminate) eq_refl).
  reflexivity.
Defined.

(** X4. [Read] keeps every diagnostic of the decoding, in order, and adds at
    most one of its own after them. What it adds is an error on the attribute
    [command] whose summary is one of 'Missing Command', 'Command Not Found'
    and 'Command Execution Failed'. *)
Theorem X4_at_most_one_diagnostic_added h ctx req :
  exists added,
    Diagnostics (response (call_Read h ctx req)) = (decoded_diags req ++ added)%list
    /\ length added <= 1
    /\ forall d, In d added -> is_Read_diagnostic d.
Proof.
  assert (none : forall ds : diag.Diagnostics,
             exists added, ds = (ds ++ added)%list /\ length added <= 1
                           /\ forall d, In d added -> is_Read_diagnostic d).
  { intros ds. exists []. rewrite app_nil_r.
    split; [reflexivity|]. split; [simpl; lia|]. intros d []. }
  assert (one : forall (ds : diag.Diagnostics) d0, is_Read_diagnostic d0 ->
             exists added, (ds ++ [d0])%list = (ds ++ added)%list /\ length added <= 1
                           /\ forall d, In d added -> is_Read_diagnostic d).
  { intros ds d0 Hd0. exists [d0].
    split; [reflexivity|]. split; [simpl; lia|]. now intros d [<-|[]]. }
  Read_paths h ctx req; rewrite O; simpl; try apply none; apply one;
    unfold is_Read_diagnostic; simpl; auto.
Qed.

(** X5. The calls [Read] makes to the outside follow one protocol. Either it
    makes none; or it looks up the first field of the command, the lookup
    fails, and that is all; or the lookup succeeds and it then traces and
    runs the shell on the command. If [cmd.Run] returns, it traces again with
    the two captured texts, whether or not the run failed; if [cmd.Run] never
    returns, nothing follows and the call is blocked. So a command is run
    only after its first field has resolved, and at most one command is
    run. *)
Theorem X5_call_protocol h ctx req :
  let o := call_Read h ctx req in
  let command := command_of req in
  let dir := workingDir_of req in
  calls o = []
  \/ (exists file rest,
         strings.Fields command = file :: rest
         /\ lookPath h file = None
         /\ calls o = [EvLookPath file])
  \/ (exists file rest p,
         strings.Fields command = file :: rest
         /\ lookPath h file = Some p
         /\ match Run.run h (sh_c ctx command dir) with
            | Some (_, out, err) =>
              blocked o = false
              /\ calls o
                 = [EvLookPath file;
                    EvTrace "Executing command" [("command", command)];
                    EvRun (sh_c ctx command dir);
                    EvTrace "Executed command"
                      [("command", command); ("output", out); ("error", err)]]
            | None =>
              blocked o = true
              /\ calls o
                 = [EvLookPath file;
                    EvTrace "Executing command" [("command", command)];
                    EvRun (sh_c ctx command dir)]
            end).
Proof.
  cbv zeta.
  Read_paths h ctx req; rewrite O; simpl; auto.
  - right; left. exists file, rest. auto.
  - right; right. exists file, rest, p. rewrite R. auto.
  - right; right. exists file, rest, p. rewrite R. auto.
  - right; right. exists file, rest, p. rewrite R. auto.
Qed.

(** White space of the ASCII range is one rune of one byte, and a space. *)
Lemma ascii_space_rune c s :
  ascii_space c = true ->
  utf8.runes (String c s)
  = (N_of_ascii c, String c (substring 0 0 s)) :: utf8.runes s
  /\ unicode.IsSpace (N_of_ascii c) = true.
Proof.
  destruct c as [[] [] [] [] [] [] [] []]; try discriminate; intros _;
    split; reflexivity.
Qed.

Lemma Fields_leading_space ws s :
  all_ascii_space ws = true -> strings.Fields (ws ++ s) = strings.Fields s.
Proof.
  induction ws as [|c ws IH]; simpl; [reflexivity|].
  intros H. apply andb_true_iff in H as [Hc Hws].
  destruct (ascii_space_rune c (ws ++ s) Hc) as [R Sp].
  unfold strings.Fields, strings.FieldsFunc. rewrite R. simpl. rewrite Sp.
  now apply IH.
Qed.

(** X6. White space of the ASCII range put before a command changes nothing
    in what is looked up on the search path: the same names are handed to
    [exec.LookPath], in the same order. *)
Theorem X6_leading_space_is_skipped_by_the_lookup h ctx cfg ds ws command :
  all_ascii_space ws = true ->
  lookups (call_Read h ctx
             (request_of (with_Command cfg (types.StringValue (ws ++ command))) ds))
  = lookups (call_Read h ctx
               (request_of (with_Command cfg (types.StringValue command)) ds)).
Proof.
  intros W.
  set (r1 := request_of (with_Command cfg (types.StringValue (ws ++ command))) ds).
  set (r2 := request_of (with_Command cfg (types.StringValue command)) ds).
  assert (F : strings.Fields (command_of r1) = strings.Fields (command_of r2))
    by (apply Fields_leading_space, W).
  assert (D : decoded_diags r1 = decoded_diags r2) by reflexivity.
  assert (none : forall r, strings.Fields (command_of r) = [] ->
                           lookups (call_Read h ctx r) = []).
  { intros r Fr.
    Read_paths h ctx r; try (rewrite O; reflexivity); congruence. }
  assert (some : forall r file rest,
             diag.HasError (decoded_diags r) = false ->
             strings.Fields (command_of r) = file :: rest ->
             lookups (call_Read h ctx r) = [file]).
  { intros r file0 rest0 Hr Fr.
    Read_paths h ctx r; try congruence;
      try (match goal with
           | HE : command_of r = "" |- _ => rewrite HE in Fr; discriminate Fr
           end);
      rewrite O; unfold lookups, run_calls, blocked_calls; simpl; congruence. }
  destruct (diag.HasError (decoded_diags r2)) eqn:H.
  { rewrite (Read_decode_error h ctx r2 H).
    rewrite <- D in H. now rewrite (Read_decode_error h ctx r1 H). }
  destruct (strings.Fields (command_of r2)) as [|file rest] eqn:F2.
  - rewrite (none r1 F). symmetry. now apply none.
  - rewrite (some r1 file rest) by (try rewrite D; assumption).
    symmetry. now apply (some r2 file rest).
Qed.

Lemma X6_leading_space_is_skipped_by_the_lookup_witness :
  lookups (call_Read Demo.host context.Background
             (request_of (with_Command (Demo.model types.StringNull types.StringNull)
                            (types.StringValue ("  " ++ "echo hello"))) []))
  = ["echo"].
Proof.
  rewrite (X6_leading_space_is_skipped_by_the_lookup Demo.host context.Background
             (Demo.model types.StringNull types.StringNull) [] "  " "echo hello"
             eq_refl).
  reflexivity.
Defined.

(** Every rune of a string that is not empty takes at least one byte, so
    no field is empty. *)
Lemma DecodeRuneInString_width c s :
  snd (utf8.DecodeRuneInString (String c s)) <> 0.
Proof.
  unfold utf8.DecodeRuneInString.
  repeat match goal with
         | |- context [if ?x then _ else _] => destruct x
         | |- context [match ?x with _ => _ end] => destruct x
         end; discriminate.
Qed.

Lemma runes_from_bytes k s r b :
  In (r, b) (utf8.runes_from k s) -> b <> "".
Proof.
  revert k; induction s as [|c s IH]; intros k; [intros []|].
  cbn [utf8.runes_from]. destruct k as [|k]; [|apply IH].
  pose proof (DecodeRuneInString_width c s) as W.
  destruct (utf8.DecodeRuneInString (String c s)) as [r' w].
  intros [E|Hin]; [|now apply IH in Hin].
  injection E as _ <-. simpl in W.
  destruct w; [contradiction | discriminate].
Qed.

Lemma append_nonempty (a b : string) : b <> "" -> a ++ b <> "".
Proof. destruct a; simpl; [auto | discriminate]. Qed.

Lemma fields_loop_nonempty f rs :
  (forall r b, In (r, b) rs -> b <> "") ->
  forall cur, (forall w, cur = Some w -> w <> "") ->
  forall x, In x (strings.fields_loop f cur rs) -> x <> "".
Proof.
  induction rs as [|[r b] rs IH]; intros Hrs cur Hcur x; simpl.
  - destruct cur as [w|]; [|intros []]. intros [<-|[]]. now apply Hcur.
  - assert (Hb : b <> "") by (apply (Hrs r); now left).
    assert (Hrs' : forall r b, In (r, b) rs -> b <> "")
      by (intros r' b' Hin; apply (Hrs r'); now right).
    destruct (f r).
    + destruct cur as [w|].
      * intros [<-|Hin]; [now apply Hcur|].
        apply (IH Hrs' None); [discriminate | assumption].
      * apply (IH Hrs' None); discriminate.
    + apply (IH Hrs').
      intros w E. injection E as <-.
      destruct cur as [w|]; [now apply append_nonempty | assumption].
Qed.

Lemma Fields_nonempty s x : In x (strings.Fields s) -> x <> "".
Proof.
  apply (fields_loop_nonempty unicode.IsSpace (utf8.runes s)).
  - intros r b. apply runes_from_bytes.
  - discriminate.
Qed.

(** X7. Whatever [Read] hands to [exec.LookPath] is the first field of the
    command, and it is never the empty name. *)
Theorem X7_lookup_name_is_the_first_field h ctx req file :
  In file (lookups (call_Read h ctx req)) ->
  file <> "" /\ exists rest, strings.Fields (command_of req) = file :: rest.
Proof.
  intros Hin.
  assert (G : exists rest, strings.Fields (command_of req) = file :: rest).
  { Read_paths h ctx req;
      rewrite O in Hin; unfold lookups, run_calls, blocked_calls in Hin;
      simpl in Hin; try contradiction;
      destruct Hin as [<-|[]]; now exists rest. }
  split; [|exact G].
  destruct G as [rest F]. apply (Fields_nonempty (command_of req)).
  rewrite F. now left.
Qed.

Lemma X7_lookup_name_is_the_first_field_witness :
  "echo" <> ""
  /\ exists rest, strings.Fields (command_of (Demo.cmd "  echo hello")) = "echo" :: rest.
Proof.
  apply (X7_lookup_name_is_the_first_field Demo.host context.Background
           (Demo.cmd "  echo hello") "echo").
  vm_compute. now left.
Defined.

(** X8. [Read] reads its configuration through [ValueString] of the command
    and of the working directory, and through nothing else. Two requests
    with the same diagnostics of decoding and the same two strings give the
    same result, diagnostics, outside calls and panic: a null or unknown
    working directory is the empty one, and values configured for output,
    error and id are never read. *)
Theorem X8_only_the_two_value_strings_are_read h ctx r1 r2 :
  Get_diags (Config r1) = Get_diags (Config r2) ->
  command_of r1 = command_of r2 ->
  workingDir_of r1 = workingDir_of r2 ->
  observation (call_Read h ctx r1) = observation (call_Read h ctx r2).
Proof.
  intros G C W.
  assert (D : decoded_diags r1 = decoded_diags r2)
    by (unfold decoded_diags; now rewrite G).
  Read_paths h ctx r1; rewrite O; clear O; rewrite ?D, ?C, ?W in *.
  - now rewrite (Read_decode_error h ctx r2 H).
  - now rewrite (Read_empty_command h ctx r2 H E).
  - now rewrite (Read_blank_command h ctx r2 H E F).
  - now rewrite (Read_not_found h ctx r2 file rest H F L).
  - now rewrite (Read_run_error h ctx r2 file rest p e out err H F L R).
  - now rewrite (Read_run_ok h ctx r2 file rest p out err H F L R).
  - now rewrite (Read_run_blocks h ctx r2 file rest p H F L R).
Qed.

(** An unknown working directory and a configured output, against a plain
    request. *)
Lemma X8_only_the_two_value_strings_are_read_witness :
  observation
    (call_Read Demo.host context.Background
       (request_of {| Command := types.StringValue "echo hello";
                      WorkingDir := types.StringUnknown;
                      Output := types.StringValue "stale";
                      Error := types.StringNull;
                      ID := types.StringValue "42" |} []))
  = observation (call_Read Demo.host context.Background (Demo.cmd "echo hello")).
Proof.
  apply X8_only_the_two_value_strings_are_read; reflexivity.
Defined.

(** X9. The path that [exec.LookPath] resolves the first field to is thrown
    away: what is run is the shell on the command string. Two hosts that
    resolve the same names, to any paths, and start the same processes give
    the same outcome for every request. *)
Theorem X9_resolved_path_is_not_used h1 h2 ctx req :
  same_resolution h1 h2 ->
  same_processes h1 h2 ->
  call_Read h1 ctx req = call_Read h2 ctx req.
Proof.
  intros Rs Ps.
  Read_paths h1 ctx req; rewrite O; symmetry.
  - now apply Read_decode_error.
  - now apply Read_empty_command.
  - now apply Read_blank_command.
  - apply (Read_not_found _ _ _ file rest); try assumption.
    specialize (Rs file). rewrite L in Rs.
    destruct (lookPath h2 file); [discriminate | reflexivity].
  - specialize (Rs file). rewrite L in Rs.
    destruct (lookPath h2 file) as [p2|] eqn:L2; [|discriminate].
    apply (Read_run_error _ _ _ file rest p2); try assumption.
    now rewrite <- (run_same_processes h1 h2).
  - specialize (Rs file). rewrite L in Rs.
    destruct (lookPath h2 file) as [p2|] eqn:L2; [|discriminate].
    apply (Read_run_ok _ _ _ file rest p2); try assumption.
    now rewrite <- (run_same_processes h1 h2).
  - specialize (Rs file). rewrite L in Rs.
    destruct (lookPath h2 file) as [p2|] eqn:L2; [|discriminate].
    apply (Read_run_blocks _ _ _ file rest p2); try assumption.
    now rewrite <- (run_same_processes h1 h2).
Qed.

Lemma X9_resolved_path_is_not_used_witness :
  lookPath Demo.host "echo" <> lookPath host_in_bin "echo"
  /\ call_Read Demo.host context.Background (Demo.cmd "echo hello")
     = call_Read host_in_bin context.Background (Demo.cmd "echo hello").
Proof.
  split; [discriminate|].
  apply X9_resolved_path_is_not_used.
  - intros file. unfold host_in_bin. cbn [lookPath].
    destruct (lookPath Demo.host file); reflexivity.
  - intros cmd. reflexivity.
Defined.

(** X10. The schema and [Read] agree on the attributes. The names the schema
    declares are the five tags of the model, each once. In every state that
    [Read] writes, an attribute the schema declares computed holds a known
    value, and an attribute it declares required or optional holds what the
    configuration gave for it. *)
Theorem X10_schema_agrees_with_Read h ctx req m :
  State (response (call_Read h ctx req)) = Some m ->
  NoDup (map fst declared_attributes)
  /\ (forall name, isSome (attribute m name) = true <-> In name (map fst declared_attributes))
  /\ forall name a,
      In (name, a) declared_attributes ->
      exists v,
        attribute m name = Some v
        /\ (schema.StringAttribute.Computed a = true -> types.IsKnownValue v = true)
        /\ (schema.StringAttribute.Computed a = false ->
            (schema.StringAttribute.Required a || schema.StringAttribute.Optional a) = true
            /\ attribute (config_of req) name = Some v).
Proof.
  intros S.
  destruct (call_Read_cases h ctx req) as [[out [err [S' _]]] | [S' _]];
    rewrite S' in S; [|discriminate].
  injection S as <-.
  split; [|split].
  - unfold declared_attributes; simpl.
    repeat (constructor; [simpl; intuition discriminate|]). constructor.
  - intros name. unfold declared_attributes, attribute; simpl. split.
    + repeat match goal with
             | |- context [name =? ?k] =>
               destruct (String.eqb_spec name k); [subst; simpl; tauto|]
             end.
      discriminate.
    + intros [<-|[<-|[<-|[<-|[<-|[]]]]]]; reflexivity.
  - intros name a Hin. unfold declared_attributes in Hin; simpl in Hin.
    destruct Hin as [E|[E|[E|[E|[E|[]]]]]]; injection E as <- <-;
      eexists; (split; [reflexivity|]); simpl; split;
      first [ reflexivity | discriminate | intros _; split; reflexivity | idtac ].
Qed.

Lemma X10_schema_agrees_with_Read_witness :
  exists v,
    attribute (set_result (Demo.model (types.StringValue "echo hello") types.StringNull)
                          ("hello" ++ nl) "")
              "working_dir" = Some v
    /\ v = types.StringNull.
Proof.
  destruct (X10_schema_agrees_with_Read Demo.host context.Background
              (Demo.cmd "echo hello") _ eq_refl) as (_ & _ & W).
  destruct (W "working_dir" _ (or_intror (or_introl eq_refl))) as (v & A & _ & K).
  exists v. split; [exact A|].
  destruct (K eq_refl) as [_ K']. vm_compute in K'. now injection K' as <-.
Defined.

(** X11. A context that is done already when [cmd.Run] is called: [Read]
    returns with 'Command Execution Failed', the error of the context and an
    empty standard error, and the state stays null. The host is not asked to
    start a process: the outcome is the same whatever the host would start
    for the command. *)
Theorem X11_context_done_before_the_run h ctx req file rest p c :
  decodes req ->
  strings.Fields (command_of req) = file :: rest ->
  lookPath h file = Some p ->
  context.done ctx = Some (0, c) ->
  call_Read h ctx req
  = returned
      {| State := None;
         Diagnostics :=
           (decoded_diags req
            ++ [CommandExecutionFailed (command_of req) (ctxError c) ""])%list |}
      (run_calls ctx file (command_of req) (workingDir_of req) "" "")
  /\ forall start : exec.Cmd -> exec.Child,
      call_Read {| lookPath := lookPath h; startProcess := start |} ctx req
      = call_Read h ctx req.
Proof.
  intros D F L Dn. pose proof (decoded_diags_ok _ D) as H.
  assert (G : forall h', lookPath h' file = Some p ->
              call_Read h' ctx req
              = returned
                  {| State := None;
                     Diagnostics :=
                       (decoded_diags req
                        ++ [CommandExecutionFailed (command_of req) (ctxError c) ""])%list |}
                  (run_calls ctx file (command_of req) (workingDir_of req) "" "")).
  { intros h' L'. apply (Read_run_error _ _ _ file rest p); try assumption.
    now apply run_context_done. }
  split; [now apply G|].
  intros start. rewrite (G h L). now apply G.
Qed.

Lemma X11_context_done_before_the_run_witness :
  map diag.Detail
      (Diagnostics (response (call_Read Demo.host (Demo.cancelAt 0) (Demo.cmd "sleep 10"))))
  = ["Command execution failed." ++ nl ++ nl ++ "Command: sleep 10" ++ nl
     ++ "Error: context canceled" ++ nl ++ "Stderr: "]
  /\ call_Read {| lookPath := lookPath Demo.host;
                  startProcess := fun _ => exec.StartFails "no such host" |}
               (Demo.cancelAt 0) (Demo.cmd "sleep 10")
     = call_Read Demo.host (Demo.cancelAt 0) (Demo.cmd "sleep 10").
Proof.
  destruct (X11_context_done_before_the_run Demo.host (Demo.cancelAt 0)
              (Demo.cmd "sleep 10") "sleep" ["10"] "/usr/bin/sleep" context.Canceled
              eq_refl eq_refl eq_refl eq_refl) as [W1 W2].
  split; [rewrite W1; reflexivity | apply W2].
Defined.

(** X12. With a configuration that decodes, a call comes to one of four
    ends. It returns with a written state and no diagnostic of its own. Or it
    returns with a null state and exactly one diagnostic of its own after
    those of the decoding: 'Missing Command', 'Command Not Found' for the
    command, or 'Command Execution Failed' for the command. Or it panics, or
    it is blocked in [cmd.Run] and never returns, in both cases with a null
    state and no diagnostic of its own. *)
Theorem X12_ways_to_end h ctx req :
  decodes req ->
  let o := call_Read h ctx req in
  let D := decoded_diags req in
  diag.HasError D = false
  /\ ((isSome (State (response o)) = true /\ Diagnostics (response o) = D
       /\ panicked o = None /\ blocked o = false)
      \/ (State (response o) = None /\ panicked o = None /\ blocked o = false
          /\ (Diagnostics (response o) = (D ++ [MissingCommand])%list
              \/ Diagnostics (response o)
                 = (D ++ [CommandNotFound (command_of req)])%list
              \/ exists e errorStr,
                  Diagnostics (response o)
                  = (D ++ [CommandExecutionFailed (command_of req) e errorStr])%list))
      \/ (State (response o) = None /\ Diagnostics (response o) = D
          /\ panicked o = Some "runtime error: index out of range [0] with length 0"
          /\ blocked o = false)
      \/ (State (response o) = None /\ Diagnostics (response o) = D
          /\ panicked o = None /\ blocked o = true)).
Proof.
  intros Dc. cbv zeta. pose proof (decoded_diags_ok _ Dc) as H'.
  split; [assumption|].
  Read_paths h ctx req; [congruence | rewrite O ..]; simpl.
  - right; left. repeat split. now left.
  - right; right; left. repeat split.
  - right; left. repeat split. right; now left.
  - right; left. repeat split. right; right. now exists e, err.
  - left. repeat split.
  - right; right; right. repeat split.
Qed.

Lemma X12_ways_to_end_witness :
  Diagnostics (response (call_Read Demo.host (Demo.cancelAt 3) (Demo.cmd "sleep 10")))
  <> []
  /\ blocked (call_Read Demo.host (Demo.cancelAt 3) (Demo.cmd "sleep 10")) = false.
Proof.
  destruct (X12_ways_to_end Demo.host (Demo.cancelAt 3) (Demo.cmd "sleep 10") eq_refl)
    as [_ [(S & _) | [(_ & _ & B & [Dg|[Dg|(e & s & Dg)]]) | [(_ & _ & P & _) | (_ & _ & _ & B)]]]].
  - vm_compute in S. discriminate S.
  - split; [rewrite Dg; discriminate | exact B].
  - split; [rewrite Dg; discriminate | exact B].
  - split; [rewrite Dg; discriminate | exact B].
  - vm_compute in P. discriminate P.
  - vm_compute in B. discriminate B.
Defined.
